(** * Date-indexed lookups of [Ticker] (python/markets/_classes.py)

    A shallow embedding of the [Ticker] class and the properties of its
    lookup methods.  The class keeps a numpy structured array [data] whose
    ['date'] field holds POSIX timestamps; every lookup turns a
    [datetime.date] into the timestamp of its local midnight, selects row
    indices with [numpy.where], and builds a dict for the chosen row.

    Conventions of the embedding:
    - timestamps and cells are whole numbers ([Z]): the array stores
      seconds since the epoch, and the timestamp of a midnight is a whole
      number of seconds;
    - a method of the class is a computation over the receiver [self]
      (state passing), so that what a call leaves behind can be stated;
    - Python exceptions are values of [exn];
    - the two calls into the platform's local-time library,
      [datetime.datetime(y, m, d).timestamp()] and
      [datetime.date.fromtimestamp(t)], are the fields of [LocalTime];
      each returns or raises, as the library does at the ends of its
      range. *)

From Stdlib Require Import ZArith Lia.
From stdpp Require Import gmap strings list fin_maps.

Local Open Scope Z_scope.
#[local] Set Warnings "-clear-no-such-hyp".

(** ** Calendar dates *)

(** [datetime.date]: the attributes the source reads. *)
Record date := mkdate { year : Z; month : Z; day : Z }.

#[global] Instance date_eq_dec : EqDecision date.
Proof. solve_decision. Defined.

(** Python orders dates as the triples (year, month, day). *)
Definition date_leb (a b : date) : bool :=
  if year a <? year b then true
  else if year b <? year a then false
  else if month a <? month b then true
  else if month b <? month a then false
  else day a <=? day b.

Definition date_le (a b : date) : Prop := date_leb a b = true.

(** ** Exceptions and results *)

Inductive exn :=
| IndexError | KeyError | ValueError | TypeError
| OverflowError | OSError | Exception.

#[global] Instance exn_eq_dec : EqDecision exn.
Proof. solve_decision. Defined.

Inductive result (A : Type) :=
| Ok (a : A)
| Raise (e : exn).
Arguments Ok {A} a.
Arguments Raise {A} e.

(** ** The platform's local-time conversions *)

(** Both calls raise on what the library cannot convert: [timestamp()] on
    the first day of year 1, [fromtimestamp] on an instant outside years 1
    to 9999 or outside the platform's [time_t]. *)
Class LocalTime := {
  (** [datetime.datetime(y, m, d).timestamp()] *)
  mktime : Z → Z → Z → result Z;
  (** [datetime.date.fromtimestamp(t)] *)
  fromtimestamp : Z → result date
}.

(** ** numpy structured arrays *)

(** [dtype_names] is [data.dtype.names]; a row holds one cell per name. *)
Record ndarray := mkarray {
  dtype_names : list string;
  rows : list (list Z)
}.

(** The values of the dicts handed to callers: a cell, or a date. *)
Inductive pyval :=
| VNum (z : Z)
| VDate (d : date).

#[global] Instance pyval_eq_dec : EqDecision pyval.
Proof. solve_decision. Defined.

(** [seq[i]] with Python's negative indices. *)
Definition py_index {A : Type} (l : list A) (i : Z) : result A :=
  let n := Z.of_nat (length l) in
  let j := if i <? 0 then i + n else i in
  if (j <? 0) || (n <=? j) then Raise IndexError
  else match l !! Z.to_nat j with
       | Some x => Ok x
       | None => Raise IndexError
       end.

(** Position of a field in the dtype. *)
Definition field_index (names : list string) (f : string) : option nat :=
  fst <$> list_find (λ n, n = f) names.

(** [row[f]] for one record of the array.  numpy rejects a name that is not
    a field of the dtype; a record shorter than its dtype does not exist in
    numpy and is given the same outcome. *)
Definition row_field (names : list string) (row : list Z) (f : string)
  : result Z :=
  match field_index names f with
  | None => Raise ValueError
  | Some k => match row !! k with
              | Some v => Ok v
              | None => Raise ValueError
              end
  end.

(** [a[f]]: the column of field [f], one cell per row, in row order. *)
Definition getfield (a : ndarray) (f : string) : result (list Z) :=
  match field_index (dtype_names a) f with
  | None => Raise ValueError
  | Some k => match mapM (λ row : list Z, row !! k) (rows a) with
              | Some col => Ok col
              | None => Raise ValueError
              end
  end.

(** [numpy.where(mask)[0]]: the indices at which [mask] holds, ascending. *)
Fixpoint where_from (i : Z) (mask : list bool) : list Z :=
  match mask with
  | [] => []
  | b :: mask' =>
      if b then i :: where_from (i + 1) mask' else where_from (i + 1) mask'
  end.

Definition np_where (mask : list bool) : list Z := where_from 0 mask.

(** [dict(pairs)]: a later pair overrides an earlier one with the same key. *)
Definition dict_of (pairs : list (string * pyval)) : gmap string pyval :=
  foldl (λ m kv, <[kv.1 := kv.2]> m) ∅ pairs.

(** ** The class *)

Record Ticker := mkTicker {
  name : string;
  long_name : string;
  data : ndarray
}.

(** A method body: it reads (and could write) the receiver, and returns a
    value or raises. *)
Definition M (A : Type) : Type := Ticker → result A * Ticker.

Definition ret {A} (a : A) : M A := λ self, (Ok a, self).
Definition raise {A} (e : exn) : M A := λ self, (Raise e, self).
Definition bind {A B} (m : M A) (k : A → M B) : M B :=
  λ self, match m self with
          | (Ok a, self') => k a self'
          | (Raise e, self') => (Raise e, self')
          end.
(** [self.data] *)
Definition self_data : M ndarray := λ self, (Ok (data self), self).
(** A library call that may raise. *)
Definition lift {A} (r : result A) : M A := λ self, (r, self).

Notation "x <- m ;; k" := (bind m (λ x, k))
  (at level 100, m at next level, right associativity).

(** The outcome of a call on receiver [self], and the receiver after it. *)
Definition run {A} (m : M A) (self : Ticker) : result A := (m self).1.
Definition after {A} (m : M A) (self : Ticker) : Ticker := (m self).2.

Section Ticker.
Context {tz : LocalTime}.

Definition get_first_date : M date :=
  a <- self_data ;;
  row <- lift (py_index (rows a) 0) ;;
  t <- lift (row_field (dtype_names a) row "date") ;;
  lift (fromtimestamp t).

Definition get_last_date : M date :=
  a <- self_data ;;
  row <- lift (py_index (rows a) (-1)) ;;
  t <- lift (row_field (dtype_names a) row "date") ;;
  lift (fromtimestamp t).

Definition _get_row (index : Z) : M (gmap string pyval) :=
  a <- self_data ;;
  row_values <- lift (py_index (rows a) index) ;;
  let column_names := dtype_names a in
  let d := dict_of (zip column_names (VNum <$> row_values)) in
  match d !! "date" with
  | Some (VNum t) =>
      date <- lift (fromtimestamp t) ;;
      ret (<["date" := VDate date]> d)
  | Some (VDate _) => raise TypeError
  | None => raise KeyError
  end.

Definition get_day (date : date) : M (gmap string pyval) :=
  timestamp <- lift (mktime (year date) (month date) (day date)) ;;
  a <- self_data ;;
  column <- lift (getfield a "date") ;;
  let matches := np_where ((λ t, bool_decide (t = timestamp)) <$> column) in
  let match_count := length matches in
  if (match_count =? 0)%nat then raise KeyError
  else if (match_count =? 1)%nat then
    row_index <- lift (py_index matches 0) ;;
    _get_row row_index
  else raise Exception.

Definition get_day_or_first_after (date : date) : M (gmap string pyval) :=
  timestamp <- lift (mktime (year date) (month date) (day date)) ;;
  a <- self_data ;;
  column <- lift (getfield a "date") ;;
  let matches := np_where ((λ t, bool_decide (timestamp ≤ t)) <$> column) in
  let match_count := length matches in
  if (match_count =? 0)%nat then raise KeyError
  else
    row_index <- lift (py_index matches 0) ;;
    _get_row row_index.

Definition get_day_or_last_before (date : date) : M (gmap string pyval) :=
  timestamp <- lift (mktime (year date) (month date) (day date)) ;;
  a <- self_data ;;
  column <- lift (getfield a "date") ;;
  let matches := np_where ((λ t, bool_decide (t ≤ timestamp)) <$> column) in
  let match_count := length matches in
  if (match_count =? 0)%nat then raise KeyError
  else
    row_index <- lift (py_index matches (-1)) ;;
    _get_row row_index.

End Ticker.

(** ** The proleptic Gregorian calendar *)

Definition is_leap (y : Z) : bool :=
  (y mod 4 =? 0) && (negb (y mod 100 =? 0) || (y mod 400 =? 0)).

Definition days_in_month (y m : Z) : Z :=
  if m =? 2 then (if is_leap y then 29 else 28)
  else if (m =? 4) || (m =? 6) || (m =? 9) || (m =? 11) then 30 else 31.

(** A month of the year and a day of that month. *)
Definition valid_month_day (c : date) : bool :=
  (1 <=? month c) && (month c <=? 12) &&
  (1 <=? day c) && (day c <=? days_in_month (year c) (month c)).

(** The dates [datetime.date] can hold: years 1 to 9999. *)
Definition valid_date (c : date) : Prop :=
  1 ≤ year c ≤ 9999 ∧ valid_month_day c = true.

(** Days since 1970-01-01 of a date, and back. *)
Definition days_from_civil (y m d : Z) : Z :=
  let y' := if m <=? 2 then y - 1 else y in
  let era := y' / 400 in
  let yoe := y' - era * 400 in
  let mp := (m + 9) mod 12 in
  let doy := (153 * mp + 2) / 5 + d - 1 in
  let doe := yoe * 365 + yoe / 4 - yoe / 100 + doy in
  era * 146097 + doe - 719468.

Definition civil_from_days (z : Z) : date :=
  let z' := z + 719468 in
  let era := z' / 146097 in
  let doe := z' - era * 146097 in
  let yoe := (doe - doe / 1460 + doe / 36524 - doe / 146096) / 365 in
  let doy := doe - (365 * yoe + yoe / 4 - yoe / 100) in
  let mp := (5 * doy + 2) / 153 in
  let d := doy - (153 * mp + 2) / 5 + 1 in
  let m := if mp <? 10 then mp + 3 else mp - 9 in
  let y := yoe + era * 400 in
  mkdate (if m <=? 2 then y + 1 else y) m d.

(** The ordinal of a date as [date.toordinal] counts it: 1 for 0001-01-01. *)
Definition leap_day (y : Z) : Z := if is_leap y then 1 else 0.

Definition days_before_year (y : Z) : Z :=
  365 * (y - 1) + (y - 1) / 4 - (y - 1) / 100 + (y - 1) / 400.

Definition days_before_month (y m : Z) : Z :=
  if m <=? 1 then 0
  else if m =? 2 then 31
  else if m =? 3 then 59 + leap_day y
  else if m =? 4 then 90 + leap_day y
  else if m =? 5 then 120 + leap_day y
  else if m =? 6 then 151 + leap_day y
  else if m =? 7 then 181 + leap_day y
  else if m =? 8 then 212 + leap_day y
  else if m =? 9 then 243 + leap_day y
  else if m =? 10 then 273 + leap_day y
  else if m =? 11 then 304 + leap_day y
  else 334 + leap_day y.

Definition ymd2ord (y m d : Z) : Z :=
  days_before_year y + days_before_month y m + d.

Definition toordinal (c : date) : Z := ymd2ord (year c) (month c) (day c).

(** ** A concrete platform: a zone at a fixed offset from UTC *)

(** The dates [datetime.date] can hold, as a test. *)
Definition valid_dateb (c : date) : bool :=
  (1 <=? year c) && (year c <=? 9999) && valid_month_day c.

(** The instant at which a zone [utcoffset] seconds east of UTC starts the
    day [c]: the local midnight of [c], whether or not the library can
    compute it. *)
Definition civil_midnight (utcoffset : Z) (c : date) : Z :=
  days_from_civil (year c) (month c) (day c) * 86400 - utcoffset.

(** [timestamp()] also looks one day back, for a repeated hour, and raises
    when that day is before year 1: it converts every date but
    0001-01-01. *)
Definition timestamp_in_range (c : date) : bool :=
  valid_dateb c && negb ((year c =? 1) && (month c =? 1) && (day c =? 1)).

(** Local time is UTC plus [utcoffset] seconds, all year round.  An
    instant that falls outside years 1 to 9999 is refused with
    [ValueError]. *)
Definition fixed_offset_zone (utcoffset : Z) : LocalTime := {|
  mktime y m d :=
    if timestamp_in_range (mkdate y m d)
    then Ok (civil_midnight utcoffset (mkdate y m d))
    else Raise ValueError;
  fromtimestamp t :=
    let c := civil_from_days ((t + utcoffset) / 86400) in
    if (1 <=? year c) && (year c <=? 9999) then Ok c else Raise ValueError
|}.

Definition utc : LocalTime := fixed_offset_zone 0.
(** Central European (winter) time. *)
Definition cet : LocalTime := fixed_offset_zone 3600.

(** ** Vocabulary of the statements *)

(** The dtype invariants of a structured array that has a ['date'] field:
    field names are distinct and every record has one cell per field. *)
Definition ndarray_wf (a : ndarray) : Prop :=
  NoDup (dtype_names a) ∧
  "date" ∈ dtype_names a ∧
  Forall (λ row, length row = length (dtype_names a)) (rows a).

(** The timestamp stored in a row, and in the row at a position. *)
Definition instant (a : ndarray) (row : list Z) : option Z :=
  k ← field_index (dtype_names a) "date"; row !! k.

Definition instant_at (a : ndarray) (i : nat) : option Z :=
  row ← rows a !! i; instant a row.

(** Rows ascend by timestamp (repeats allowed). *)
Definition sorted_by_instant (a : ndarray) : Prop :=
  ∀ i j t u, instant_at a i = Some t → instant_at a j = Some u →
             (i ≤ j)%nat → t ≤ u.

(** A test of ascent that computes. *)
Fixpoint ascending (l : list Z) : bool :=
  match l with
  | [] => true
  | x :: l' =>
      match l' with
      | [] => true
      | y :: _ => (x <=? y) && ascending l'
      end
  end.

(** The index list every lookup computes from the ['date'] column, for a
    test [P] on timestamps. *)
Definition select (P : Z → Prop) `{!∀ t, Decision (P t)}
    (column : list Z) : list Z :=
  np_where ((λ t, bool_decide (P t)) <$> column).

(** A method that never writes its receiver. *)
Definition readonly {A} (m : M A) : Prop := ∀ self, after m self = self.

Section Vocabulary.
Context {tz : LocalTime}.

(** The local-midnight timestamp of a date, as every lookup computes it. *)
Definition midnight (d : date) : result Z :=
  mktime (year d) (month d) (day d).

(** [r] is the record of [row]: one entry per field name, each holding
    the cell of that field, except that ['date'] holds the calendar date
    of the stored timestamp. *)
Definition record_of (a : ndarray) (row : list Z)
    (r : gmap string pyval) : Prop :=
  dom r = list_to_set (dtype_names a) ∧
  (∃ t x, instant a row = Some t ∧ fromtimestamp t = Ok x ∧
          r !! "date" = Some (VDate x)) ∧
  (∀ (k : nat) (c : string), c ≠ "date" → dtype_names a !! k = Some c →
        r !! c = VNum <$> row !! k).

(** Later dates have later midnights. *)
Definition midnight_monotone : Prop :=
  ∀ a b qa qb, valid_date a → valid_date b → date_le a b →
               midnight a = Ok qa → midnight b = Ok qb → qa ≤ qb.

(** The local calendar never runs backwards. *)
Definition calendar_monotone : Prop :=
  ∀ t u x y, t ≤ u → fromtimestamp t = Ok x → fromtimestamp u = Ok y →
             date_le x y.

(** The date conversion raises no [KeyError] and no [IndexError] of its
    own: the library raises [ValueError], [OverflowError] or [OSError]. *)
Definition date_errors_only : Prop :=
  ∀ t e, fromtimestamp t = Raise e →
         e = ValueError ∨ e = OverflowError ∨ e = OSError.

End Vocabulary.

(** ** Example tables *)

(** Three trading days around a weekend, stamped at midnight CET:
    2020-01-02, 2020-01-03 and 2020-01-06. *)
Definition week_ticker : Ticker :=
  mkTicker "EQNR" "Equinor"
    (mkarray ["date"; "close"]
       [[1577919600; 180]; [1578006000; 182]; [1578265200; 185]]).

(** The same instant twice. *)
Definition repeated_ticker : Ticker :=
  mkTicker "EQNR" "Equinor"
    (mkarray ["date"; "close"] [[1577919600; 180]; [1577919600; 181]]).

Definition empty_ticker : Ticker :=
  mkTicker "EQNR" "Equinor" (mkarray ["date"; "close"] []).

(** One row, stamped at noon UTC of 1970-01-01. *)
Definition noon_ticker : Ticker :=
  mkTicker "EQNR" "Equinor" (mkarray ["date"; "close"] [[43200; 180]]).

(** Two rows at UTC midnights, the later one first. *)
Definition unsorted_ticker : Ticker :=
  mkTicker "EQNR" "Equinor"
    (mkarray ["date"; "close"] [[86400; 181]; [0; 180]]).

(** One row, stamped at the UTC midnight of 0001-01-01. *)
Definition year_one_ticker : Ticker :=
  mkTicker "EQNR" "Equinor" (mkarray ["date"; "close"] [[-62135596800; 180]]).

(** Two rows, both stamped at the UTC midnight of 0001-01-01. *)
Definition year_one_repeated_ticker : Ticker :=
  mkTicker "EQNR" "Equinor"
    (mkarray ["date"; "close"] [[-62135596800; 180]; [-62135596800; 181]]).

(** One row, stamped at the UTC midnight of the day after 9999-12-31. *)
Definition far_ticker : Ticker :=
  mkTicker "EQNR" "Equinor" (mkarray ["date"; "close"] [[253402300800; 180]]).

(** One row, stamped a year before the UTC midnight of 0001-01-01. *)
Definition early_ticker : Ticker :=
  mkTicker "EQNR" "Equinor" (mkarray ["date"; "close"] [[-62167219200; 180]]).

(** Two rows on 1970-01-01 UTC, at noon and at one o'clock. *)
Definition afternoon_ticker : Ticker :=
  mkTicker "EQNR" "Equinor"
    (mkarray ["date"; "close"] [[43200; 180]; [46800; 181]]).

(** ** The rest of the module *)

(** [Ticker(name, long_name, data)]: the array is kept as given. *)
Definition __init__ (name long_name : string) (data : ndarray) : Ticker :=
  {| name := name; long_name := long_name; data := data |}.

(** [self.name], the body of both [__str__] and [__repr__]. *)
Definition __str__ : M string := λ self, (Ok (name self), self).
Definition __repr__ : M string := λ self, (Ok (name self), self).

(** [Market(name, long_name)] keeps neither argument and starts with no
    tickers. *)
Record Market := mkMarket { tickers : list Ticker }.

Definition Market__init__ (name long_name : string) : Market :=
  {| tickers := [] |}.

(** ** More vocabulary *)

(** No two rows share a timestamp. *)
Definition distinct_instants (a : ndarray) : Prop :=
  ∀ i j t, instant_at a i = Some t → instant_at a j = Some t → i = j.

Section MoreVocabulary.
Context {tz : LocalTime}.

(** Every row is stamped at the local midnight of its own date. *)
Definition midnight_stamped (a : ndarray) : Prop :=
  ∀ i t x, instant_at a i = Some t → fromtimestamp t = Ok x →
           midnight x = Ok t.

End MoreVocabulary.
(** ** Python indexing *)

Lemma py_index_nat {A} (l : list A) (k : nat) :
  py_index l (Z.of_nat k) =
  match l !! k with Some x => Ok x | None => Raise IndexError end.
Proof.
  unfold py_index. cbv zeta.
  assert ((Z.of_nat k <? 0) = false) as Hn by (apply Z.ltb_ge; lia).
  rewrite !Hn, Nat2Z.id. simpl.
  destruct (Z.leb_spec (Z.of_nat (length l)) (Z.of_nat k)) as [Hge|Hlt].
  - rewrite lookup_ge_None_2; [done | lia].
  - done.
Qed.

Lemma py_index_first {A} (l : list A) :
  py_index l 0 = match head l with Some x => Ok x | None => Raise IndexError end.
Proof. change 0 with (Z.of_nat 0). rewrite py_index_nat. by destruct l. Qed.

Lemma py_index_last {A} (l : list A) :
  py_index l (-1) =
  match last l with Some x => Ok x | None => Raise IndexError end.
Proof.
  unfold py_index. simpl.
  destruct l as [|x l] using rev_ind; [done|].
  rewrite last_snoc, length_app. simpl.
  replace (-1 + Z.of_nat (length l + 1)) with (Z.of_nat (length l)) by lia.
  destruct (Z.ltb_spec (Z.of_nat (length l)) 0); [lia|].
  destruct (Z.leb_spec (Z.of_nat (length l + 1)) (Z.of_nat (length l)));
    [lia|]. simpl.
  by rewrite Nat2Z.id, lookup_app_r, Nat.sub_diag.
Qed.

(** ** [numpy.where] *)

Lemma elem_of_where_from (mask : list bool) (i j : Z) :
  j ∈ where_from i mask ↔
  ∃ k : nat, j = i + Z.of_nat k ∧ mask !! k = Some true.
Proof.
  revert i. induction mask as [|b mask IH]; intros i; simpl.
  - split; [by intros ?%elem_of_nil | by intros (k & _ & ?)].
  - assert (j ∈ where_from (i + 1) mask ↔
            ∃ k : nat, j = i + Z.of_nat (S k) ∧ mask !! k = Some true) as IH'.
    { rewrite IH. split; intros (k & -> & Hk); exists k; split; auto; lia. }
    destruct b.
    + rewrite elem_of_cons, IH'. split.
      * intros [-> | (k & -> & Hk)]; [exists 0%nat | exists (S k)];
          split; auto; lia.
      * intros ([|k] & -> & Hk); [left; lia | right; eauto].
    + rewrite IH'. split.
      * intros (k & -> & Hk). exists (S k). auto.
      * intros ([|k] & -> & Hk); [done | eauto].
Qed.

Lemma where_from_app (m1 m2 : list bool) (i : Z) :
  where_from i (m1 ++ m2) =
  where_from i m1 ++ where_from (i + Z.of_nat (length m1)) m2.
Proof.
  revert i. induction m1 as [|b m1 IH]; intros i; simpl.
  - f_equal. lia.
  - rewrite IH.
    replace (i + 1 + Z.of_nat (length m1))
      with (i + Z.of_nat (S (length m1))) by lia.
    by destruct b.
Qed.

Lemma where_from_NoDup (mask : list bool) (i : Z) : NoDup (where_from i mask).
Proof.
  revert i. induction mask as [|b mask IH]; intros i; simpl.
  - constructor.
  - destruct b; [|apply IH]. constructor; [|apply IH].
    rewrite elem_of_where_from. intros (k & Hk & _). lia.
Qed.

(** The first selected index is the first position where the mask holds. *)
Lemma where_from_head (mask : list bool) (i : Z) :
  head (where_from i mask) =
  (λ p, i + Z.of_nat p.1) <$> list_find (λ b, b = true) mask.
Proof.
  revert i. induction mask as [|b mask IH]; intros i; [done|].
  simpl. destruct b.
  - rewrite decide_True by done. simpl. f_equal. lia.
  - rewrite decide_False by done. rewrite IH.
    destruct (list_find _ mask) as [[k x]|]; simpl; [|done].
    f_equal. lia.
Qed.

(** The last selected index is the last position where the mask holds. *)
Lemma where_from_last (mask : list bool) (i j : Z) :
  last (where_from i mask) = Some j ↔
  ∃ k : nat, j = i + Z.of_nat k ∧ mask !! k = Some true ∧
             ∀ k' : nat, (k < k')%nat → mask !! k' ≠ Some true.
Proof.
  revert j. induction mask as [|b mask IH] using rev_ind; intros j.
  - simpl. split; [done | by intros (k & _ & ? & _)].
  - rewrite where_from_app. simpl. destruct b.
    + rewrite last_snoc. split.
      * intros [= <-]. exists (length mask). split; [done|]. split.
        { by rewrite lookup_app_r, Nat.sub_diag. }
        intros k' Hk'. rewrite lookup_ge_None_2; [done|].
        rewrite length_app. simpl. lia.
      * intros (k & -> & Hk & Hlast). f_equal.
        destruct (decide (k = length mask)) as [->|Hne]; [done|].
        exfalso. apply (Hlast (length mask)).
        { apply lookup_lt_Some in Hk. rewrite length_app in Hk.
          simpl in Hk. lia. }
        by rewrite lookup_app_r, Nat.sub_diag.
    + rewrite app_nil_r, IH. split.
      * intros (k & -> & Hk & Hlast). exists k. split; [done|].
        assert (k < length mask)%nat by by eapply lookup_lt_Some.
        split; [by rewrite lookup_app_l|].
        intros k' Hk'. destruct (decide (k' < length mask)%nat).
        { rewrite lookup_app_l by done. by apply Hlast. }
        destruct (decide (k' = length mask)) as [->|].
        { by rewrite lookup_app_r, Nat.sub_diag. }
        rewrite lookup_ge_None_2; [done|]. rewrite length_app. simpl. lia.
      * intros (k & -> & Hk & Hlast). exists k. split; [done|].
        assert (k < length mask)%nat.
        { destruct (decide (k < length mask)%nat); [done|].
          apply lookup_lt_Some in Hk as Hlt. rewrite length_app in Hlt.
          simpl in Hlt. assert (k = length mask) as -> by lia.
          by rewrite lookup_app_r, Nat.sub_diag in Hk. }
        rewrite lookup_app_l in Hk by done. split; [done|].
        intros k' Hk' Hk''. apply (Hlast k' Hk').
        apply lookup_lt_Some in Hk'' as ?. by rewrite lookup_app_l.
Qed.

Lemma where_from_nil (mask : list bool) (i : Z) :
  where_from i mask = [] ↔ ∀ k : nat, mask !! k ≠ Some true.
Proof.
  split.
  - intros Hnil k Hk.
    assert (i + Z.of_nat k ∈ where_from i mask) as Hin
      by (apply elem_of_where_from; eauto).
    rewrite Hnil in Hin. by apply elem_of_nil in Hin.
  - intros Hnone. destruct (where_from i mask) as [|j l] eqn:E; [done|].
    assert (j ∈ where_from i mask) as Hin by (rewrite E; left).
    apply elem_of_where_from in Hin as (k & _ & Hk). by apply Hnone in Hk.
Qed.

(** ** Fields and columns of a well-formed array *)

Lemma field_index_Some (names : list string) (f : string) (k : nat) :
  field_index names f = Some k →
  names !! k = Some f ∧ ∀ j, (j < k)%nat → names !! j ≠ Some f.
Proof.
  unfold field_index. destruct (list_find _ names) as [[k' x]|] eqn:E; [|done].
  intros [= <-]. apply list_find_Some in E as (Hk & -> & Hmin).
  split; [done|]. intros j Hj Hjf. by eapply Hmin.
Qed.

Lemma field_index_elem_of (names : list string) (f : string) :
  f ∈ names → ∃ k, field_index names f = Some k.
Proof.
  intros Hin. unfold field_index.
  destruct (list_find (λ n, n = f) names) as [[k x]|] eqn:E; [by exists k|].
  apply list_find_None in E. rewrite Forall_forall in E.
  by destruct (E f Hin).
Qed.

Lemma field_index_NoDup (names : list string) (f : string) (k : nat) :
  NoDup names → names !! k = Some f → field_index names f = Some k.
Proof.
  intros Hnd Hk.
  destruct (field_index_elem_of names f) as [k' Hk'];
    [by eapply list_elem_of_lookup_2|].
  rewrite Hk'. f_equal. apply field_index_Some in Hk' as [Hk' _].
  by eapply NoDup_lookup.
Qed.

Lemma instant_at_Some (a : ndarray) (i : nat) (t : Z) :
  instant_at a i = Some t ↔
  ∃ row, rows a !! i = Some row ∧ instant a row = Some t.
Proof.
  unfold instant_at. destruct (rows a !! i) as [row|]; simpl.
  - split; [eauto | by intros (? & [= <-] & ?)].
  - split; [done | by intros (? & ? & _)].
Qed.

Lemma instant_at_wf (a : ndarray) (i : nat) (row : list Z) :
  ndarray_wf a → rows a !! i = Some row → is_Some (instant a row).
Proof.
  intros (_ & Hin & Hlen) Hrow.
  destruct (field_index_elem_of _ _ Hin) as [kd Hkd].
  unfold instant. rewrite Hkd. simpl. apply lookup_lt_is_Some.
  rewrite Forall_forall in Hlen.
  rewrite (Hlen row) by by eapply list_elem_of_lookup_2.
  apply field_index_Some in Hkd as [Hkd _]. by eapply lookup_lt_Some.
Qed.

(** ** Dicts built from pairs *)

Lemma foldl_insert_lookup (pairs : list (string * pyval))
    (m : gmap string pyval) (c : string) :
  NoDup pairs.*1 →
  (∀ v, (c, v) ∈ pairs →
        foldl (λ m kv, <[kv.1 := kv.2]> m) m pairs !! c = Some v) ∧
  (c ∉ pairs.*1 →
        foldl (λ m kv, <[kv.1 := kv.2]> m) m pairs !! c = m !! c).
Proof.
  revert m. induction pairs as [|[c0 v0] pairs IH]; intros m Hnd; simpl.
  - split; [by intros v ?%elem_of_nil | done].
  - apply NoDup_cons in Hnd as [Hc0 Hnd].
    destruct (IH (<[c0:=v0]> m) Hnd) as [IH1 IH2]. split.
    + intros v [[= -> ->]|Hin]%elem_of_cons; [|by apply IH1].
      rewrite IH2 by done. apply lookup_insert_eq.
    + intros [Hne Hnin]%not_elem_of_cons.
      rewrite IH2 by done. by apply lookup_insert_ne.
Qed.

Lemma foldl_insert_dom (pairs : list (string * pyval))
    (m : gmap string pyval) :
  dom (foldl (λ m kv, <[kv.1 := kv.2]> m) m pairs) =
  dom m ∪ list_to_set pairs.*1.
Proof.
  revert m. induction pairs as [|[c0 v0] pairs IH]; intros m; simpl.
  - set_solver.
  - rewrite IH, dom_insert_L. set_solver.
Qed.

Lemma dict_of_zip_lookup (names : list string) (vals : list pyval)
    (k : nat) (c : string) :
  NoDup names → length vals = length names → names !! k = Some c →
  dict_of (zip names vals) !! c = vals !! k.
Proof.
  intros Hnd Hlen Hk.
  assert (is_Some (vals !! k)) as [v Hv].
  { apply lookup_lt_is_Some. rewrite Hlen. by eapply lookup_lt_Some. }
  rewrite Hv. unfold dict_of.
  apply foldl_insert_lookup; [rewrite fst_zip by lia; done|].
  apply list_elem_of_lookup. exists k.
  by rewrite lookup_zip_with, Hk, Hv.
Qed.

Lemma dict_of_zip_dom (names : list string) (vals : list pyval) :
  length vals = length names →
  dom (dict_of (zip names vals)) = list_to_set names.
Proof.
  intros Hlen. unfold dict_of.
  rewrite foldl_insert_dom, fst_zip by lia. set_solver.
Qed.

(** ** Selecting row indices by a test on the timestamp *)

Section Select.
Context (P : Z → Prop) `{!∀ t, Decision (P t)}.

Lemma select_mask (column : list Z) (k : nat) :
  ((λ t, bool_decide (P t)) <$> column) !! k = Some true ↔
  ∃ t, column !! k = Some t ∧ P t.
Proof.
  rewrite list_lookup_fmap. destruct (column !! k) as [t|]; simpl.
  - split.
    + intros [= Ht]. apply bool_decide_eq_true in Ht. eauto.
    + intros (? & [= <-] & Ht). by rewrite bool_decide_eq_true_2.
  - split; [done | by intros (? & ? & _)].
Qed.

Lemma elem_of_select (column : list Z) (j : Z) :
  j ∈ select P column ↔
  ∃ (k : nat) t, j = Z.of_nat k ∧ column !! k = Some t ∧ P t.
Proof.
  unfold select, np_where. rewrite elem_of_where_from. split.
  - intros (k & -> & (t & ? & ?)%select_mask). by exists k, t.
  - intros (k & t & -> & ? & ?). exists k. split; [done|].
    apply select_mask. eauto.
Qed.

Lemma select_nil (column : list Z) :
  select P column = [] ↔ ∀ (k : nat) t, column !! k = Some t → ¬ P t.
Proof.
  unfold select, np_where. rewrite where_from_nil. split.
  - intros Hnone k t Hk HP. apply (Hnone k), select_mask. eauto.
  - intros Hnone k (t & Hk & HP)%select_mask. by eapply Hnone.
Qed.

Lemma select_head (column : list Z) (j : Z) :
  head (select P column) = Some j ↔
  ∃ (k : nat) t, j = Z.of_nat k ∧ column !! k = Some t ∧ P t ∧
    ∀ (k' : nat) t', (k' < k)%nat → column !! k' = Some t' → ¬ P t'.
Proof.
  unfold select, np_where. rewrite where_from_head. split.
  - destruct (list_find _ _) as [[k b]|] eqn:E; [|done].
    intros [= <-]. apply list_find_Some in E as (Hk & -> & Hmin).
    apply select_mask in Hk as (t & Hk & HP).
    exists k, t. do 3 (split; [done|]).
    intros k' t' Hlt Hk' HP'.
    assert (((λ t, bool_decide (P t)) <$> column) !! k' = Some true) as Hm
      by (apply select_mask; eauto).
    by apply (Hmin _ _ Hm).
  - intros (k & t & -> & Hk & HP & Hmin).
    assert (list_find (λ b, b = true) ((λ t, bool_decide (P t)) <$> column)
            = Some (k, true)) as ->; [|done].
    apply list_find_Some. split; [apply select_mask; eauto|].
    split; [done|]. intros k' b Hk' Hlt ->.
    apply select_mask in Hk' as (t' & Hk' & HP'). by eapply Hmin.
Qed.

Lemma select_last (column : list Z) (j : Z) :
  last (select P column) = Some j ↔
  ∃ (k : nat) t, j = Z.of_nat k ∧ column !! k = Some t ∧ P t ∧
    ∀ (k' : nat) t', (k < k')%nat → column !! k' = Some t' → ¬ P t'.
Proof.
  unfold select, np_where. rewrite where_from_last. split.
  - intros (k & -> & (t & Hk & HP)%select_mask & Hmax).
    exists k, t. do 3 (split; [done|]).
    intros k' t' Hlt Hk' HP'. apply (Hmax k' Hlt), select_mask. eauto.
  - intros (k & t & -> & Hk & HP & Hmax). exists k. split; [done|].
    split; [apply select_mask; eauto|].
    intros k' Hlt (t' & Hk' & HP')%select_mask. by eapply Hmax.
Qed.


(** Two positions passing the test give at least two selected indices. *)
Lemma select_two (column : list Z) (k1 k2 : nat) (t1 t2 : Z) :
  k1 ≠ k2 → column !! k1 = Some t1 → P t1 →
  column !! k2 = Some t2 → P t2 →
  (2 ≤ length (select P column))%nat.
Proof.
  intros Hne Hk1 HP1 Hk2 HP2.
  assert (Z.of_nat k1 ∈ select P column) as Hin1
    by (apply elem_of_select; eauto).
  assert (Z.of_nat k2 ∈ select P column) as Hin2
    by (apply elem_of_select; eauto).
  destruct (select P column) as [|j1 [|j2 l]]; simpl; [| |lia].
  - by apply elem_of_nil in Hin1.
  - apply list_elem_of_singleton in Hin1, Hin2. lia.
Qed.
End Select.

(** ** Running method bodies *)

Lemma run_bind {A B} (m : M A) (k : A → M B) (self : Ticker) :
  run (bind m k) self =
  match run m self with
  | Ok a => run (k a) (after m self)
  | Raise e => Raise e
  end.
Proof. unfold run, after, bind. by destruct (m self) as [[a|e] self']. Qed.

Lemma readonly_bind {A B} (m : M A) (k : A → M B) :
  readonly m → (∀ a, readonly (k a)) → readonly (bind m k).
Proof.
  intros Hm Hk self. specialize (Hm self). unfold after, bind in *.
  destruct (m self) as [[a|e] self']; simpl in *; subst; [apply Hk | done].
Qed.

Lemma readonly_ret {A} (a : A) : readonly (ret a).
Proof. done. Qed.

Lemma readonly_raise {A} (e : exn) : readonly (raise (A:=A) e).
Proof. done. Qed.

Lemma readonly_lift {A} (r : result A) : readonly (lift r).
Proof. done. Qed.

Lemma readonly_self_data : readonly self_data.
Proof. done. Qed.

Create HintDb readonly.
#[export] Hint Resolve readonly_ret readonly_raise readonly_lift
  readonly_self_data : readonly.

Ltac solve_readonly :=
  repeat first
    [ solve [auto with readonly]
    | apply readonly_bind; [|intros ?]
    | progress cbv zeta
    | match goal with
      | |- readonly (if ?b then _ else _) => destruct b
      | |- readonly (match ?x with _ => _ end) => destruct x
      end ].

(** ** [_get_row] *)

Section Rows.
Context {tz : LocalTime}.

Lemma py_index_elem_of {A} (l : list A) (z : Z) (x : A) :
  py_index l z = Ok x → x ∈ l.
Proof.
  unfold py_index. cbv zeta.
  destruct (_ || _); [done|].
  destruct (l !! _) as [y|] eqn:E; [|done].
  intros [= <-]. by eapply list_elem_of_lookup_2.
Qed.

(** Indexing an existing row dates its timestamp: the record comes back
    when the platform returns the date, the platform's exception when it
    raises. *)
Lemma _get_row_outcome (self : Ticker) (z : Z) (row : list Z) :
  ndarray_wf (data self) →
  py_index (rows (data self)) z = Ok row →
  ∃ t, instant (data self) row = Some t ∧
       (∀ e, fromtimestamp t = Raise e → run (_get_row z) self = Raise e) ∧
       (∀ x, fromtimestamp t = Ok x →
             ∃ r, run (_get_row z) self = Ok r ∧
                  record_of (data self) row r ∧
                  r !! "date" = Some (VDate x)).
Proof.
  intros Hwf Hrow. pose proof Hwf as (Hnd & Hin & Hlen).
  assert (length (VNum <$> row) = length (dtype_names (data self))) as Hl.
  { rewrite length_fmap. rewrite Forall_forall in Hlen.
    apply Hlen. by eapply py_index_elem_of. }
  destruct (field_index_elem_of _ _ Hin) as [kd Hkd].
  pose proof (field_index_Some _ _ _ Hkd) as [Hkd' _].
  assert (is_Some (row !! kd)) as [t Ht].
  { apply lookup_lt_is_Some. rewrite length_fmap in Hl. rewrite Hl.
    by eapply lookup_lt_Some. }
  assert (instant (data self) row = Some t) as Hinst
    by (unfold instant; by rewrite Hkd).
  exists t. split; [done|].
  unfold _get_row, run, bind, self_data, lift. simpl. rewrite Hrow.
  rewrite (dict_of_zip_lookup _ _ kd) by done.
  rewrite list_lookup_fmap, Ht. simpl. split.
  - intros e He. by rewrite He.
  - intros x Hx. rewrite Hx. simpl.
    eexists. split; [done|]. split; [|apply lookup_insert_eq].
    split; [|split].
    + rewrite dom_insert_L, dict_of_zip_dom by done.
      assert ("date" ∈ (list_to_set (dtype_names (data self)) : gset string))
        by by apply elem_of_list_to_set.
      set_solver.
    + exists t, x. do 2 (split; [done|]). apply lookup_insert_eq.
    + intros k c Hc Hk. rewrite lookup_insert_ne by done.
      rewrite (dict_of_zip_lookup _ _ k) by done.
      apply list_lookup_fmap.
Qed.

(** The same, by the position of the row. *)
Lemma _get_row_at (self : Ticker) (k : nat) (t : Z) :
  ndarray_wf (data self) →
  instant_at (data self) k = Some t →
  ∃ row, rows (data self) !! k = Some row ∧
         instant (data self) row = Some t ∧
         (∀ e, fromtimestamp t = Raise e →
               run (_get_row (Z.of_nat k)) self = Raise e) ∧
         (∀ x, fromtimestamp t = Ok x →
               ∃ r, run (_get_row (Z.of_nat k)) self = Ok r ∧
                    record_of (data self) row r ∧
                    r !! "date" = Some (VDate x)).
Proof.
  intros Hwf (row & Hrow & Ht)%instant_at_Some.
  destruct (_get_row_outcome self (Z.of_nat k) row Hwf)
    as (t' & Ht' & Hraise & Hok).
  { by rewrite py_index_nat, Hrow. }
  assert (t' = t) as -> by congruence.
  by exists row.
Qed.

(** A record that came back is the record of its row, dated by the
    platform. *)
Lemma _get_row_returned (self : Ticker) (k : nat) (t : Z)
    (r : gmap string pyval) :
  ndarray_wf (data self) →
  instant_at (data self) k = Some t →
  run (_get_row (Z.of_nat k)) self = Ok r →
  ∃ row x, rows (data self) !! k = Some row ∧
           instant (data self) row = Some t ∧
           fromtimestamp t = Ok x ∧
           record_of (data self) row r ∧
           r !! "date" = Some (VDate x).
Proof.
  intros Hwf Hk Hr.
  destruct (_get_row_at self k t Hwf Hk) as (row & Hrow & Ht & Hraise & Hok).
  destruct (fromtimestamp t) as [x|e] eqn:Hx.
  - destruct (Hok x eq_refl) as (r' & Hr' & Hrec & Hdate).
    assert (r' = r) as -> by congruence. by exists row, x.
  - rewrite (Hraise e eq_refl) in Hr. done.
Qed.

(** A row has one record. *)
Lemma record_of_unique (a : ndarray) (row : list Z)
    (r1 r2 : gmap string pyval) :
  record_of a row r1 → record_of a row r2 → r1 = r2.
Proof.
  intros (Hdom1 & (t1 & x1 & Ht1 & Hx1 & Hd1) & Hc1)
         (Hdom2 & (t2 & x2 & Ht2 & Hx2 & Hd2) & Hc2).
  apply map_eq. intros c.
  destruct (decide (c = "date")) as [->|Hne]; [congruence|].
  destruct (decide (c ∈ dtype_names a)) as [Hin|Hnin].
  - apply list_elem_of_lookup in Hin as [k Hk].
    by rewrite (Hc1 k c), (Hc2 k c).
  - assert (c ∉ dom r1) as Hn1 by (rewrite Hdom1; set_solver).
    assert (c ∉ dom r2) as Hn2 by (rewrite Hdom2; set_solver).
    apply not_elem_of_dom in Hn1, Hn2. congruence.
Qed.
End Rows.

(** ** What each lookup computes *)

Section Lookups.
Context {tz : LocalTime}.
Implicit Types (self : Ticker) (d : date) (column : list Z).

Lemma getfield_date_lookup (a : ndarray) column :
  getfield a "date" = Ok column → ∀ i, column !! i = instant_at a i.
Proof.
  unfold getfield, instant_at, instant.
  destruct (field_index _ _) as [kd|]; [|done].
  destruct (mapM _ _) as [col|] eqn:Hcol; [|done].
  intros [= <-] i. apply mapM_Some in Hcol.
  rewrite Forall2_lookup in Hcol. specialize (Hcol i). simpl.
  destruct (rows a !! i) as [row|]; inversion Hcol; simpl; congruence.
Qed.

Lemma getfield_date (a : ndarray) :
  ndarray_wf a → ∃ column, getfield a "date" = Ok column.
Proof.
  intros (Hnd & Hin & Hlen).
  destruct (field_index_elem_of _ _ Hin) as [kd Hkd].
  unfold getfield. rewrite Hkd.
  assert (is_Some (mapM (λ row : list Z, row !! kd) (rows a))) as [col Hcol].
  { apply mapM_is_Some. eapply Forall_impl; [exact Hlen|].
    intros row Hrow. simpl. apply lookup_lt_is_Some. rewrite Hrow.
    apply field_index_Some in Hkd as [Hkd _]. by eapply lookup_lt_Some. }
  rewrite Hcol. by exists col.
Qed.

(** A date the platform cannot turn into a timestamp stops every lookup
    before the table is read. *)
Lemma lookup_midnight_error self d (e : exn) :
  midnight d = Raise e →
  run (get_day d) self = Raise e ∧
  run (get_day_or_first_after d) self = Raise e ∧
  run (get_day_or_last_before d) self = Raise e.
Proof.
  unfold midnight. intros He.
  unfold get_day, get_day_or_first_after, get_day_or_last_before.
  rewrite !run_bind. unfold run, lift. simpl. by rewrite He.
Qed.

(** A lookup that returned had its date converted. *)
Lemma lookup_returned_midnight self d (r : gmap string pyval) :
  run (get_day d) self = Ok r ∨
  run (get_day_or_first_after d) self = Ok r ∨
  run (get_day_or_last_before d) self = Ok r →
  ∃ q, midnight d = Ok q.
Proof.
  intros Hr. destruct (midnight d) as [q|e] eqn:Hq; [by exists q|].
  destruct (lookup_midnight_error self d e Hq) as (H1 & H2 & H3).
  destruct Hr as [Hr|[Hr|Hr]]; congruence.
Qed.

Lemma get_day_run self d (q : Z) column :
  midnight d = Ok q →
  getfield (data self) "date" = Ok column →
  run (get_day d) self =
  match select (λ t, t = q) column with
  | [] => Raise KeyError
  | [j] => run (_get_row j) self
  | _ => Raise Exception
  end.
Proof.
  unfold midnight. intros Hq Hcol. unfold get_day.
  rewrite run_bind. unfold run at 1, after at 1, lift. simpl. rewrite Hq.
  rewrite run_bind. simpl.
  rewrite run_bind. unfold after at 1. simpl. unfold run at 1. simpl.
  rewrite Hcol.
  change (np_where _) with (select (λ t, t = q) column).
  by destruct (select _ column) as [|j [|j' l]].
Qed.

Lemma get_day_or_first_after_run self d (q : Z) column :
  midnight d = Ok q →
  getfield (data self) "date" = Ok column →
  run (get_day_or_first_after d) self =
  match head (select (λ t, q ≤ t) column) with
  | None => Raise KeyError
  | Some j => run (_get_row j) self
  end.
Proof.
  unfold midnight. intros Hq Hcol. unfold get_day_or_first_after.
  rewrite run_bind. unfold run at 1, after at 1, lift. simpl. rewrite Hq.
  rewrite run_bind. simpl.
  rewrite run_bind. unfold after at 1. simpl. unfold run at 1. simpl.
  rewrite Hcol.
  change (np_where _) with (select (λ t, q ≤ t) column).
  by destruct (select _ column) as [|j l].
Qed.

Lemma get_day_or_last_before_run self d (q : Z) column :
  midnight d = Ok q →
  getfield (data self) "date" = Ok column →
  run (get_day_or_last_before d) self =
  match last (select (λ t, t ≤ q) column) with
  | None => Raise KeyError
  | Some j => run (_get_row j) self
  end.
Proof.
  unfold midnight. intros Hq Hcol. unfold get_day_or_last_before.
  rewrite run_bind. unfold run at 1, after at 1, lift. simpl. rewrite Hq.
  rewrite run_bind. simpl.
  rewrite run_bind. unfold after at 1. simpl. unfold run at 1. simpl.
  rewrite Hcol.
  change (np_where _) with (select (λ t, t ≤ q) column).
  destruct (select _ column) as [|j l] eqn:E; [done|].
  change (length (j :: l) =? 0)%nat with false. cbv iota.
  rewrite run_bind. unfold run at 1. cbv beta. rewrite py_index_last.
  destruct (last (j :: l)) eqn:El; [done|].
  by apply last_None in El.
Qed.

Lemma first_after_cases self d (q : Z) column :
  midnight d = Ok q →
  getfield (data self) "date" = Ok column →
  (∃ (k : nat) t,
      column !! k = Some t ∧ q ≤ t ∧
      (∀ (k' : nat) t', (k' < k)%nat → column !! k' = Some t' → t' < q) ∧
      run (get_day_or_first_after d) self = run (_get_row (Z.of_nat k)) self)
  ∨ ((∀ (k : nat) t, column !! k = Some t → t < q) ∧
     run (get_day_or_first_after d) self = Raise KeyError).
Proof.
  intros Hq Hcol. rewrite (get_day_or_first_after_run _ _ _ _ Hq Hcol).
  destruct (head (select _ column)) as [j|] eqn:E.
  - left. apply select_head in E as (k & t & -> & Hk & Hqt & Hmin).
    exists k, t. do 2 (split; [done|]). split; [|done].
    intros k' t' Hlt Hk'. specialize (Hmin k' t' Hlt Hk'). simpl in Hmin. lia.
  - right. split; [|done]. apply head_None in E.
    intros k t Hk. pose proof (proj1 (select_nil _ _) E k t Hk) as Hn.
    simpl in Hn. lia.
Qed.

Lemma last_before_cases self d (q : Z) column :
  midnight d = Ok q →
  getfield (data self) "date" = Ok column →
  (∃ (k : nat) t,
      column !! k = Some t ∧ t ≤ q ∧
      (∀ (k' : nat) t', (k < k')%nat → column !! k' = Some t' → q < t') ∧
      run (get_day_or_last_before d) self = run (_get_row (Z.of_nat k)) self)
  ∨ ((∀ (k : nat) t, column !! k = Some t → q < t) ∧
     run (get_day_or_last_before d) self = Raise KeyError).
Proof.
  intros Hq Hcol. rewrite (get_day_or_last_before_run _ _ _ _ Hq Hcol).
  destruct (last (select _ column)) as [j|] eqn:E.
  - left. apply select_last in E as (k & t & -> & Hk & Hqt & Hmax).
    exists k, t. do 2 (split; [done|]). split; [|done].
    intros k' t' Hlt Hk'. specialize (Hmax k' t' Hlt Hk'). simpl in Hmax. lia.
  - right. split; [|done]. apply last_None in E.
    intros k t Hk. pose proof (proj1 (select_nil _ _) E k t Hk) as Hn.
    simpl in Hn. lia.
Qed.

(** The three ways [get_day] can end, by the number of matching rows. *)
Lemma get_day_three_cases self d (q : Z) column :
  midnight d = Ok q →
  getfield (data self) "date" = Ok column →
  (run (get_day d) self = Raise KeyError ∧
   ∀ k : nat, column !! k ≠ Some q)
  ∨ (∃ k : nat,
       column !! k = Some q ∧
       (∀ k' : nat, column !! k' = Some q → k' = k) ∧
       run (get_day d) self = run (_get_row (Z.of_nat k)) self)
  ∨ (run (get_day d) self = Raise Exception ∧
     ∃ k1 k2 : nat, k1 ≠ k2 ∧ column !! k1 = Some q ∧
                    column !! k2 = Some q).
Proof.
  intros Hq Hcol. rewrite (get_day_run _ _ _ _ Hq Hcol).
  pose proof (where_from_NoDup
                ((λ t, bool_decide (t = q)) <$> column) 0) as Hnd.
  change (where_from 0 _) with (select (λ t, t = q) column) in Hnd.
  destruct (select _ column) as [|j [|j' l]] eqn:E.
  - left. split; [done|]. intros k Hk.
    by apply (proj1 (select_nil _ _) E k q).
  - right; left.
    assert (j ∈ select (λ t, t = q) column) as Hin by (rewrite E; left).
    apply elem_of_select in Hin as (k & t & -> & Hk & ->).
    exists k. split; [done|]. split; [|done]. intros k' Hk'.
    assert (Z.of_nat k' ∈ select (λ t, t = q) column) as Hin'
      by (apply elem_of_select; eauto).
    rewrite E in Hin'. apply list_elem_of_singleton in Hin'. lia.
  - right; right. split; [done|].
    assert (j ∈ select (λ t, t = q) column) as Hin by (rewrite E; left).
    assert (j' ∈ select (λ t, t = q) column) as Hin'
      by (rewrite E; right; left).
    apply elem_of_select in Hin as (k & t & -> & Hk & ->).
    apply elem_of_select in Hin' as (k' & t' & -> & Hk' & ->).
    exists k, k'. split; [|done]. intros ->.
    apply NoDup_cons in Hnd as [Hnin _]. apply Hnin. left.
Qed.

(** The last row sits at the last position. *)
Lemma last_row_position (a : ndarray) (row : list Z) :
  last (rows a) = Some row →
  rows a !! pred (length (rows a)) = Some row ∧
  ∀ (j : nat) u, instant_at a j = Some u → (j ≤ pred (length (rows a)))%nat.
Proof.
  rewrite last_lookup. intros Hlast. split; [done|].
  intros j u (row' & Hj & _)%instant_at_Some.
  apply lookup_lt_Some in Hj. lia.
Qed.

Lemma row_field_instant (a : ndarray) (row : list Z) (t : Z) :
  instant a row = Some t → row_field (dtype_names a) row "date" = Ok t.
Proof.
  unfold instant, row_field.
  destruct (field_index _ _) as [k|]; [|done]. simpl. by intros ->.
Qed.

(** The boundary dates of a table with rows are what the platform makes of
    the first and of the last timestamp. *)
Lemma boundary_dates_from_rows self :
  ndarray_wf (data self) →
  rows (data self) ≠ [] →
  ∃ t0 tn,
    instant_at (data self) 0 = Some t0 ∧
    instant_at (data self) (pred (length (rows (data self)))) = Some tn ∧
    run get_first_date self = fromtimestamp t0 ∧
    run get_last_date self = fromtimestamp tn.
Proof.
  intros Hwf Hne.
  destruct (head (rows (data self))) as [row0|] eqn:Hhead;
    [|by apply head_None in Hhead].
  destruct (last (rows (data self))) as [rown|] eqn:Hlast;
    [|by apply last_None in Hlast].
  pose proof Hhead as Hrow0. rewrite head_lookup in Hrow0.
  destruct (last_row_position _ _ Hlast) as [Hrown _].
  destruct (instant_at_wf _ _ _ Hwf Hrow0) as [t0 Ht0].
  destruct (instant_at_wf _ _ _ Hwf Hrown) as [tn Htn].
  exists t0, tn. split; [apply instant_at_Some; eauto|].
  split; [apply instant_at_Some; eauto|]. split.
  - unfold get_first_date, run, bind, self_data, lift. simpl.
    rewrite py_index_first, Hhead. simpl.
    rewrite (row_field_instant _ _ _ Ht0). by destruct (fromtimestamp t0).
  - unfold get_last_date, run, bind, self_data, lift. simpl.
    rewrite py_index_last, Hlast. simpl.
    rewrite (row_field_instant _ _ _ Htn). by destruct (fromtimestamp tn).
Qed.
End Lookups.

(** ** The calendar *)

Ltac split_tests :=
  repeat match goal with
  | |- context [Z.ltb ?a ?b] => destruct (Z.ltb_spec0 a b)
  | |- context [Z.leb ?a ?b] => destruct (Z.leb_spec0 a b)
  | |- context [Z.eqb ?a ?b] => destruct (Z.eqb_spec a b)
  end.

Ltac div_lia := Z.div_mod_to_equations; lia.

Ltac month_cases m H :=
  assert (m = 1 ∨ m = 2 ∨ m = 3 ∨ m = 4 ∨ m = 5 ∨ m = 6 ∨ m = 7 ∨
          m = 8 ∨ m = 9 ∨ m = 10 ∨ m = 11 ∨ m = 12) as H by lia.

(** The order of dates is a total order. *)
Lemma date_le_refl (a : date) : date_le a a.
Proof. unfold date_le, date_leb. split_tests; lia. Qed.

Lemma date_le_trans (a b c : date) : date_le a b → date_le b c → date_le a c.
Proof.
  unfold date_le, date_leb. intros Hab Hbc.
  repeat match goal with
  | H : context [Z.ltb ?a ?b] |- _ => destruct (Z.ltb_spec0 a b)
  | H : context [Z.leb ?a ?b] |- _ => destruct (Z.leb_spec0 a b)
  end; try done; split_tests; lia.
Qed.

Lemma date_leb_antisym (a b : date) :
  date_leb a b = true → date_leb b a = true → a = b.
Proof.
  destruct a as [y m d], b as [y' m' d']. unfold date_leb. simpl.
  intros Hab Hba.
  repeat match goal with
  | H : context [Z.ltb ?a ?b] |- _ => destruct (Z.ltb_spec0 a b)
  | H : context [Z.leb ?a ?b] |- _ => destruct (Z.leb_spec0 a b)
  end; try done; f_equal; lia.
Qed.

(** Going from a day number to a date and back gives the day number. *)
Lemma days_from_civil_from_days (z : Z) :
  days_from_civil (year (civil_from_days z)) (month (civil_from_days z))
    (day (civil_from_days z)) = z.
Proof.
  unfold civil_from_days.
  set (z' := z + 719468). set (era := z' / 146097).
  set (doe := z' - era * 146097).
  set (yoe := (doe - doe / 1460 + doe / 36524 - doe / 146096) / 365).
  set (doy := doe - (365 * yoe + yoe / 4 - yoe / 100)).
  set (mp := (5 * doy + 2) / 153).
  set (d := doy - (153 * mp + 2) / 5 + 1).
  set (m := if mp <? 10 then mp + 3 else mp - 9).
  set (y := yoe + era * 400).
  assert (0 ≤ doe < 146097) as Hdoe by (subst doe era; div_lia).
  assert (0 ≤ yoe ≤ 399) as Hyoe by (subst yoe; div_lia).
  assert (0 ≤ doy ≤ 365) as Hdoy by (subst doy yoe; div_lia).
  assert (0 ≤ mp ≤ 11) as Hmp by (subst mp; div_lia).
  assert ((m + 9) mod 12 = mp) as Hm by (subst m; split_tests; div_lia).
  assert ((if m <=? 2 then (if m <=? 2 then y + 1 else y) - 1
           else (if m <=? 2 then y + 1 else y)) = y) as Hy
    by (split_tests; lia).
  cbv zeta. simpl year; simpl month; simpl day.
  unfold days_from_civil. rewrite Hy, Hm.
  assert (y / 400 = era) as -> by (subst y; div_lia).
  replace (y - era * 400) with yoe by (subst y; lia).
  subst d doy z'. lia.
Qed.

(** Every day number is a month and a day of that month. *)
Lemma civil_from_days_valid (z : Z) :
  valid_month_day (civil_from_days z) = true.
Proof.
  unfold civil_from_days.
  set (z' := z + 719468). set (era := z' / 146097).
  set (doe := z' - era * 146097).
  set (yoe := (doe - doe / 1460 + doe / 36524 - doe / 146096) / 365).
  set (doy := doe - (365 * yoe + yoe / 4 - yoe / 100)).
  set (mp := (5 * doy + 2) / 153).
  set (d := doy - (153 * mp + 2) / 5 + 1).
  set (m := if mp <? 10 then mp + 3 else mp - 9).
  set (y := yoe + era * 400).
  assert (0 ≤ doe < 146097) as Hdoe by (subst doe era; div_lia).
  assert (0 ≤ yoe ≤ 399) as Hyoe by (subst yoe; div_lia).
  assert (0 ≤ doy ≤ 365) as Hdoy by (subst doy yoe; div_lia).
  assert (doy = 365 →
          (yoe + 1) mod 4 = 0 ∧ ((yoe + 1) mod 100 ≠ 0 ∨ yoe = 399))
    as Hleap by (subst doy yoe; div_lia).
  assert (0 ≤ mp ≤ 11) as Hmp by (subst mp; div_lia).
  assert (1 ≤ d) as Hd1 by (subst d mp; div_lia).
  unfold valid_month_day, days_in_month, is_leap. cbv zeta.
  simpl year; simpl month; simpl day.
  assert (1 ≤ m ≤ 12) as Hm by (subst m; split_tests; lia).
  assert (m = 1 ∧ mp = 10 ∨ m = 2 ∧ mp = 11 ∨ 3 ≤ m ∧ mp = m - 3) as Hmm
    by (subst m; split_tests; lia).
  clearbody m.
  assert (mp ≤ 10 →
          d ≤ (if (mp =? 1) || (mp =? 3) || (mp =? 6) || (mp =? 8)
               then 30 else 31)) as Hd.
  { intros Hle.
    assert (mp = 0 ∨ mp = 1 ∨ mp = 2 ∨ mp = 3 ∨ mp = 4 ∨ mp = 5 ∨ mp = 6 ∨
            mp = 7 ∨ mp = 8 ∨ mp = 9 ∨ mp = 10) as Hcases by lia.
    subst d. unfold mp in *.
    repeat (destruct Hcases as [Hc|Hcases];
            [rewrite Hc in *; simpl; div_lia|]).
    rewrite Hcases in *; simpl; div_lia. }
  assert (mp = 11 → d ≤ 29 ∧ (d = 29 → doy = 365)) as Hfeb
    by (subst d mp; div_lia).
  clearbody d mp doy.
  subst y. clearbody yoe era. clear z' doe Hdoe.
  repeat (apply andb_true_intro; split); try (apply Z.leb_le; lia).
  apply Z.leb_le.
  destruct Hmm as [[-> ->]|[[-> ->]|[Hm3 ->]]].
  - simpl in *. lia.
  - simpl. destruct Hfeb as [Hf1 Hf2]; [done|].
    split_tests; simpl; try lia.
    all: destruct (Z.eq_dec d 29) as [->|]; [|lia].
    all: specialize (Hleap (Hf2 eq_refl)); exfalso; div_lia.
  - specialize (Hd ltac:(lia)). clear Hfeb Hleap.
    assert (m = 3 ∨ m = 4 ∨ m = 5 ∨ m = 6 ∨ m = 7 ∨ m = 8 ∨ m = 9 ∨
            m = 10 ∨ m = 11 ∨ m = 12) as Hcases by lia.
    repeat (destruct Hcases as [->|Hcases]; [simpl in *; lia|]).
    subst m. simpl in *. lia.
Qed.

(** The day number is the ordinal of the date, counted from 1970-01-01. *)
Lemma days_from_civil_ordinal (y m d : Z) :
  1 ≤ m ≤ 12 → days_from_civil y m d = ymd2ord y m d - 719163.
Proof.
  intros Hm. month_cases m Hcases.
  unfold ymd2ord, days_before_year, days_before_month, leap_day, is_leap,
    days_from_civil.
  repeat (destruct Hcases as [->|Hcases];
          [cbn [Z.leb Z.eqb Z.compare Pos.compare Pos.compare_cont Pos.eqb];
           cbv zeta; split_tests; cbn [andb orb negb]; div_lia|]).
  subst m. cbn [Z.leb Z.eqb Z.compare Pos.compare Pos.compare_cont Pos.eqb].
  cbv zeta. split_tests; cbn [andb orb negb]; div_lia.
Qed.

Lemma days_before_year_succ (y : Z) :
  days_before_year (y + 1) = days_before_year y + 365 + leap_day y.
Proof.
  unfold days_before_year, leap_day, is_leap.
  replace (y + 1 - 1) with y by lia.
  split_tests; cbn [andb orb negb]; div_lia.
Qed.

Lemma days_before_year_mono (y y' : Z) :
  y < y' → days_before_year y + 365 + leap_day y ≤ days_before_year y'.
Proof.
  intros Hlt. rewrite <- days_before_year_succ.
  assert (y + 1 ≤ y') as Hle by lia. clear Hlt.
  unfold days_before_year. div_lia.
Qed.

Lemma valid_month_day_inv (y m d : Z) :
  valid_month_day (mkdate y m d) = true →
  1 ≤ m ≤ 12 ∧ 1 ≤ d ≤ days_in_month y m.
Proof.
  unfold valid_month_day. simpl. intros Hv.
  repeat match goal with
  | H : _ && _ = true |- _ => apply andb_prop in H; destruct H
  end. lia.
Qed.

Lemma day_of_year_bounds (y m d : Z) :
  valid_month_day (mkdate y m d) = true →
  1 ≤ days_before_month y m + d ≤ 365 + leap_day y.
Proof.
  intros [Hm Hd]%valid_month_day_inv. revert Hd.
  unfold days_before_month, days_in_month, leap_day.
  month_cases m Hcases.
  repeat (destruct Hcases as [->|Hcases];
          [simpl; destruct (is_leap y); lia|]).
  subst m; simpl; destruct (is_leap y); lia.
Qed.

Lemma day_of_year_month_lt (y m d m' d' : Z) :
  valid_month_day (mkdate y m d) = true →
  valid_month_day (mkdate y m' d') = true →
  m < m' → days_before_month y m + d < days_before_month y m' + d'.
Proof.
  intros [Hm Hd]%valid_month_day_inv [Hm' Hd']%valid_month_day_inv Hlt.
  revert Hd Hd'. unfold days_before_month, days_in_month, leap_day.
  month_cases m Hcases. month_cases m' Hcases'.
  destruct (is_leap y);
    repeat (destruct Hcases as [->|Hcases]);
    repeat (destruct Hcases' as [->|Hcases']); subst; try lia; simpl; lia.
Qed.

(** A later date has a larger ordinal. *)
Lemma toordinal_strict (a b : date) :
  valid_month_day a = true → valid_month_day b = true →
  date_leb b a = false → toordinal a < toordinal b.
Proof.
  destruct a as [y m d], b as [y' m' d'].
  unfold date_leb, toordinal, ymd2ord. simpl. intros Ha Hb.
  pose proof (day_of_year_bounds _ _ _ Ha).
  pose proof (day_of_year_bounds _ _ _ Hb).
  destruct (Z.ltb_spec y' y); [done|].
  destruct (Z.ltb_spec y y').
  { intros _. pose proof (days_before_year_mono y y'). lia. }
  assert (y' = y) as -> by lia.
  destruct (Z.ltb_spec m' m); [done|].
  destruct (Z.ltb_spec m m').
  { intros _. pose proof (day_of_year_month_lt _ _ _ _ _ Ha Hb). lia. }
  assert (m' = m) as -> by lia.
  intros ?%Z.leb_gt. lia.
Qed.

Lemma days_from_civil_toordinal (c : date) :
  valid_month_day c = true →
  days_from_civil (year c) (month c) (day c) = toordinal c - 719163.
Proof.
  destruct c as [y m d]. intros [Hm _]%valid_month_day_inv.
  by apply days_from_civil_ordinal.
Qed.

(** Going from a date to its day number and back gives the date. *)
Lemma civil_from_days_from_civil (c : date) :
  valid_month_day c = true →
  civil_from_days (days_from_civil (year c) (month c) (day c)) = c.
Proof.
  intros Hc. set (z := days_from_civil (year c) (month c) (day c)).
  pose proof (civil_from_days_valid z) as He.
  pose proof (days_from_civil_from_days z) as Hz.
  rewrite (days_from_civil_toordinal _ He) in Hz.
  unfold z in Hz at 2. rewrite (days_from_civil_toordinal _ Hc) in Hz.
  apply date_leb_antisym.
  - destruct (date_leb (civil_from_days z) c) eqn:E; [done|].
    pose proof (toordinal_strict _ _ Hc He E). lia.
  - destruct (date_leb c (civil_from_days z)) eqn:E; [done|].
    pose proof (toordinal_strict _ _ He Hc E). lia.
Qed.

(** Later day numbers are later dates, and later dates later day numbers. *)
Lemma civil_from_days_mono (z z' : Z) :
  z ≤ z' → date_le (civil_from_days z) (civil_from_days z').
Proof.
  intros Hle. unfold date_le.
  destruct (date_leb (civil_from_days z) (civil_from_days z')) eqn:E;
    [done|].
  pose proof (toordinal_strict _ _ (civil_from_days_valid z')
                (civil_from_days_valid z) E) as Hlt.
  pose proof (days_from_civil_from_days z) as Hz.
  pose proof (days_from_civil_from_days z') as Hz'.
  rewrite days_from_civil_toordinal in Hz, Hz'
    by apply civil_from_days_valid.
  lia.
Qed.

Lemma days_from_civil_mono (a b : date) :
  valid_month_day a = true → valid_month_day b = true → date_le a b →
  days_from_civil (year a) (month a) (day a) ≤
  days_from_civil (year b) (month b) (day b).
Proof.
  intros Ha Hb Hab. rewrite !days_from_civil_toordinal by done.
  destruct (date_leb b a) eqn:E.
  - by rewrite (date_leb_antisym a b Hab E).
  - pose proof (toordinal_strict _ _ Ha Hb E). lia.
Qed.

(** ** The fixed-offset platform is lawful *)

Lemma valid_dateb_valid_date (c : date) :
  valid_dateb c = true ↔ valid_date c.
Proof.
  unfold valid_dateb, valid_date. rewrite !andb_true_iff, !Z.leb_le. tauto.
Qed.

(** What the platform computes, when it computes it. *)
Lemma fixed_offset_midnight (off : Z) (d : date) (q : Z) :
  @midnight (fixed_offset_zone off) d = Ok q →
  q = civil_midnight off d ∧ valid_date d.
Proof.
  destruct d as [y m dd]. unfold midnight.
  cbn [mktime fixed_offset_zone year month day].
  destruct (timestamp_in_range _) eqn:E; [|done].
  intros [= <-]. split; [done|].
  apply andb_prop in E as [E _]. by apply valid_dateb_valid_date.
Qed.

Lemma fixed_offset_midnight_Ok (off : Z) (d : date) :
  valid_date d → d ≠ mkdate 1 1 1 →
  @midnight (fixed_offset_zone off) d = Ok (civil_midnight off d).
Proof.
  destruct d as [y m dd]. intros Hd Hne. unfold midnight.
  cbn [mktime fixed_offset_zone year month day].
  assert (timestamp_in_range (mkdate y m dd) = true) as ->; [|done].
  unfold timestamp_in_range. apply andb_true_intro. split.
  - by apply valid_dateb_valid_date.
  - cbn [year month day]. apply negb_true_iff.
    destruct (Z.eqb_spec y 1) as [->|]; [|done].
    destruct (Z.eqb_spec m 1) as [->|]; [|done].
    destruct (Z.eqb_spec dd 1) as [->|]; done.
Qed.

Lemma fixed_offset_fromtimestamp (off t : Z) (x : date) :
  @fromtimestamp (fixed_offset_zone off) t = Ok x →
  x = civil_from_days ((t + off) / 86400) ∧ valid_date x.
Proof.
  cbn [fromtimestamp fixed_offset_zone]. cbv zeta.
  destruct (_ && _) eqn:E; [|done]. intros [= <-]. split; [done|].
  apply andb_prop in E as [E1 E2]. split; [lia|].
  apply civil_from_days_valid.
Qed.

(** A date whose midnight is computed is the date of that midnight. *)
Lemma fixed_offset_round_trip (off : Z) (d : date) (q : Z) :
  @midnight (fixed_offset_zone off) d = Ok q →
  @fromtimestamp (fixed_offset_zone off) q = Ok d.
Proof.
  intros [-> [Hy Hd]]%fixed_offset_midnight.
  cbn [fromtimestamp fixed_offset_zone]. cbv zeta. unfold civil_midnight.
  replace (days_from_civil (year d) (month d) (day d) * 86400 - off + off)
    with (days_from_civil (year d) (month d) (day d) * 86400) by lia.
  rewrite Z.div_mul by done. rewrite civil_from_days_from_civil by done.
  assert ((1 <=? year d) && (year d <=? 9999) = true) as ->; [|done].
  apply andb_true_intro. split; apply Z.leb_le; lia.
Qed.

Lemma fixed_offset_midnight_monotone (off : Z) :
  @midnight_monotone (fixed_offset_zone off).
Proof.
  intros a b qa qb [_ Ha] [_ Hb] Hab
         [-> _]%fixed_offset_midnight [-> _]%fixed_offset_midnight.
  unfold civil_midnight.
  pose proof (days_from_civil_mono a b Ha Hb Hab). lia.
Qed.

Lemma fixed_offset_calendar_monotone (off : Z) :
  @calendar_monotone (fixed_offset_zone off).
Proof.
  intros t u x y Htu [-> _]%fixed_offset_fromtimestamp
         [-> _]%fixed_offset_fromtimestamp.
  apply civil_from_days_mono. apply Z.div_le_mono; lia.
Qed.

Lemma fixed_offset_date_errors_only (off : Z) :
  @date_errors_only (fixed_offset_zone off).
Proof.
  intros t e. cbn [fromtimestamp fixed_offset_zone]. cbv zeta.
  destruct (_ && _); [done|]. intros [= <-]. by left.
Qed.

(** The midnight of the local date of an instant is the last midnight at or
    before that instant. *)
Lemma fixed_offset_midnight_floor (off t : Z) (x : date) (q : Z) :
  @fromtimestamp (fixed_offset_zone off) t = Ok x →
  @midnight (fixed_offset_zone off) x = Ok q →
  q ≤ t < q + 86400.
Proof.
  intros [-> _]%fixed_offset_fromtimestamp [-> _]%fixed_offset_midnight.
  unfold civil_midnight. rewrite days_from_civil_from_days. div_lia.
Qed.

(** ** The example tables *)

Lemma ascending_lookup (l : list Z) :
  ascending l = true →
  ∀ (i j : nat) (t u : Z),
    l !! i = Some t → l !! j = Some u → (i ≤ j)%nat → t ≤ u.
Proof.
  induction l as [|x l IH]; intros Hasc i j t u Hi Hj Hij; [done|].
  assert (ascending l = true ∧ ∀ y, head l = Some y → x ≤ y) as [Hl Hx].
  { simpl in Hasc. destruct l as [|y l']; [done|].
    apply andb_prop in Hasc as [Hxy Hl]. split; [done|].
    intros ? [= <-]. lia. }
  specialize (IH Hl).
  assert (∀ (k : nat) v, l !! k = Some v → x ≤ v) as Hall.
  { intros k v Hk. destruct l as [|y l']; [done|].
    specialize (Hx y eq_refl).
    pose proof (IH 0%nat k y v eq_refl Hk ltac:(lia)). lia. }
  destruct i as [|i], j as [|j]; simpl in *.
  - assert (t = u) by congruence. lia.
  - injection Hi as <-. by eapply Hall.
  - lia.
  - eapply IH; eauto. lia.
Qed.

(** A table whose ['date'] column passes the test is sorted. *)
Lemma ascending_sorted (a : ndarray) (column : list Z) :
  getfield a "date" = Ok column → ascending column = true →
  sorted_by_instant a.
Proof.
  intros Hcol Hasc i j t u Hi Hj Hij.
  rewrite <- (getfield_date_lookup _ _ Hcol) in Hi, Hj.
  by eapply (ascending_lookup column).
Qed.

Lemma two_columns_wf (c : string) (rs : list (list Z)) :
  c ≠ "date" → Forall (λ row, length row = 2%nat) rs →
  ndarray_wf (mkarray ["date"; c] rs).
Proof.
  intros Hc Hrs. split; [|split]; simpl.
  - apply NoDup_cons. split; [|apply NoDup_singleton].
    intros ?%list_elem_of_singleton. done.
  - left.
  - done.
Qed.

(** ** Properties of the lookups *)

Section Properties.
Context {tz : LocalTime}.
Implicit Types (self : Ticker) (d : date) (column : list Z).

(** C6. On a table with no rows, [get_first_date] and [get_last_date]
    both fail: indexing the empty array raises [IndexError], the error
    the description calls EmptyTableError. *)
Theorem boundary_dates_of_empty_table self :
  rows (data self) = [] →
  run get_first_date self = Raise IndexError ∧
  run get_last_date self = Raise IndexError.
Proof.
  intros Hrows. unfold get_first_date, get_last_date, run, bind, self_data,
    lift. simpl. by rewrite Hrows.
Qed.

(** C5, as it holds.  For a date [d] whose midnight timestamp the platform
    computes, when no row's timestamp equals it, [get_day d] fails with
    [KeyError] (DateNotFoundError), on any table, sorted or not. *)
Theorem get_day_absent self d (q : Z) :
  ndarray_wf (data self) →
  midnight d = Ok q →
  (∀ i, instant_at (data self) i ≠ Some q) →
  run (get_day d) self = Raise KeyError.
Proof.
  intros Hwf Hq Habsent. destruct (getfield_date _ Hwf) as [column Hcol].
  rewrite (get_day_run _ _ _ _ Hq Hcol).
  assert (select (λ t, t = q) column = []) as ->; [|done].
  apply select_nil. intros k t Hk ->.
  apply (Habsent k). by rewrite <- (getfield_date_lookup _ _ Hcol).
Qed.

(** C4, as it holds.  For a date [d] whose midnight timestamp the platform
    computes, when more than one row's timestamp equals it, [get_day d]
    fails with [Exception] (DataIntegrityError); being a failure, it
    returns none of the rows. *)
Theorem get_day_duplicate self d (q : Z) (i j : nat) :
  ndarray_wf (data self) →
  midnight d = Ok q →
  i ≠ j →
  instant_at (data self) i = Some q →
  instant_at (data self) j = Some q →
  run (get_day d) self = Raise Exception ∧
  ∀ r, run (get_day d) self ≠ Ok r.
Proof.
  intros Hwf Hq Hne Hi Hj. destruct (getfield_date _ Hwf) as [column Hcol].
  rewrite (get_day_run _ _ _ _ Hq Hcol).
  rewrite <- (getfield_date_lookup _ _ Hcol) in Hi, Hj.
  pose proof (select_two (λ t, t = q) column i j _ _
                Hne Hi eq_refl Hj eq_refl) as Hlen.
  destruct (select _ column) as [|j1 [|j2 l]]; simpl in Hlen; [lia|lia|].
  done.
Qed.


(** C2, as it holds.  On a sorted table, for a date [d] whose midnight
    timestamp [q] the platform computes, [get_day_or_first_after d] selects
    the first row at or after [q]: the row of lowest index among the
    qualifying ones, which is also the earliest of them.  It returns the
    record of that row when the platform dates the row's timestamp, and
    raises the platform's exception when it does not.  It raises
    [KeyError] (DateNotFoundError) when no row qualifies and, the date
    conversion raising no [KeyError] of its own, only then; on a table
    with rows, no row qualifies exactly when the last row is before
    [q]. *)
Theorem get_day_or_first_after_first self d (q : Z) :
  ndarray_wf (data self) →
  sorted_by_instant (data self) →
  midnight d = Ok q →
  ((∃ j u, instant_at (data self) j = Some u ∧ q ≤ u) →
   ∃ (i : nat) row t,
     rows (data self) !! i = Some row ∧
     instant (data self) row = Some t ∧ q ≤ t ∧
     (∀ (j : nat) u, instant_at (data self) j = Some u → q ≤ u →
                     (i ≤ j)%nat ∧ t ≤ u) ∧
     (∀ x, fromtimestamp t = Ok x →
           ∃ r, run (get_day_or_first_after d) self = Ok r ∧
                record_of (data self) row r) ∧
     (∀ e, fromtimestamp t = Raise e →
           run (get_day_or_first_after d) self = Raise e)) ∧
  ((∀ (j : nat) u, instant_at (data self) j = Some u → u < q) →
   run (get_day_or_first_after d) self = Raise KeyError) ∧
  (date_errors_only →
   run (get_day_or_first_after d) self = Raise KeyError →
   ∀ (j : nat) u, instant_at (data self) j = Some u → u < q) ∧
  (∀ row, last (rows (data self)) = Some row →
     ((∀ (j : nat) u, instant_at (data self) j = Some u → u < q) ↔
      ∃ u, instant (data self) row = Some u ∧ u < q)).
Proof.
  intros Hwf Hsorted Hq. destruct (getfield_date _ Hwf) as [column Hcol].
  pose proof (getfield_date_lookup _ _ Hcol) as Hlook.
  assert (∀ row, last (rows (data self)) = Some row →
     ((∀ (j : nat) u, instant_at (data self) j = Some u → u < q) ↔
      ∃ u, instant (data self) row = Some u ∧ u < q)) as Hlast.
  { intros row [Hrow Hpos]%last_row_position.
    destruct (instant_at_wf _ _ _ Hwf Hrow) as [u Hu].
    assert (instant_at (data self) (pred (length (rows (data self))))
            = Some u) as Hat by (apply instant_at_Some; eauto).
    split.
    - intros Hnone. exists u. split; [done|]. by eapply Hnone.
    - intros (u' & Hu' & Hlt) j v Hj. assert (u' = u) as -> by congruence.
      pose proof (Hsorted _ _ _ _ Hj Hat (Hpos _ _ Hj)). lia. }
  destruct (first_after_cases self d q column Hq Hcol)
    as [(k & t & Hk & Hqt & Hmin & Hrun)|[Hnone Hrun]]; rewrite Hrun.
  - rewrite Hlook in Hk.
    destruct (_get_row_at self k t Hwf Hk) as (row & Hrow & Ht & Hraise & Hok).
    split; [|split; [|split; [|done]]].
    + intros _. exists k, row, t. do 3 (split; [done|]).
      split; [|split; [|done]].
      * intros j u Hj Hu.
        assert (k ≤ j)%nat as Hle.
        { destruct (decide (k ≤ j)%nat); [done|].
          rewrite <- Hlook in Hj. specialize (Hmin j u ltac:(lia) Hj). lia. }
        split; [done|]. by eapply Hsorted.
      * intros x Hx. destruct (Hok x Hx) as (r & Hr & Hrec & _).
        by exists r.
    + intros Hall. specialize (Hall k t Hk). lia.
    + intros Herr Hkey. exfalso.
      destruct (fromtimestamp t) as [x|e] eqn:Hx.
      * destruct (Hok x eq_refl) as (r & Hr & _). congruence.
      * rewrite (Hraise e eq_refl) in Hkey. injection Hkey as ->.
        destruct (Herr t KeyError Hx) as [?|[?|?]]; done.
  - split; [|split; [|split; [|done]]]; [|done|].
    + intros (j & u & Hj & Hu). rewrite <- Hlook in Hj.
      specialize (Hnone j u Hj). lia.
    + intros _ _ j u Hj. rewrite <- Hlook in Hj. by eapply Hnone.
Qed.

(** C3, as it holds.  On a sorted table, for a date [d] whose midnight
    timestamp [q] the platform computes, [get_day_or_last_before d]
    selects the last row at or before [q]: the row of highest index among
    the qualifying ones, which is also the latest of them.  It returns the
    record of that row when the platform dates the row's timestamp, and
    raises the platform's exception when it does not.  It raises
    [KeyError] (DateNotFoundError) when no row qualifies and, the date
    conversion raising no [KeyError] of its own, only then; on a table
    with rows, no row qualifies exactly when the first row is after
    [q]. *)
Theorem get_day_or_last_before_last self d (q : Z) :
  ndarray_wf (data self) →
  sorted_by_instant (data self) →
  midnight d = Ok q →
  ((∃ j u, instant_at (data self) j = Some u ∧ u ≤ q) →
   ∃ (i : nat) row t,
     rows (data self) !! i = Some row ∧
     instant (data self) row = Some t ∧ t ≤ q ∧
     (∀ (j : nat) u, instant_at (data self) j = Some u → u ≤ q →
                     (j ≤ i)%nat ∧ u ≤ t) ∧
     (∀ x, fromtimestamp t = Ok x →
           ∃ r, run (get_day_or_last_before d) self = Ok r ∧
                record_of (data self) row r) ∧
     (∀ e, fromtimestamp t = Raise e →
           run (get_day_or_last_before d) self = Raise e)) ∧
  ((∀ (j : nat) u, instant_at (data self) j = Some u → q < u) →
   run (get_day_or_last_before d) self = Raise KeyError) ∧
  (date_errors_only →
   run (get_day_or_last_before d) self = Raise KeyError →
   ∀ (j : nat) u, instant_at (data self) j = Some u → q < u) ∧
  (∀ row, head (rows (data self)) = Some row →
     ((∀ (j : nat) u, instant_at (data self) j = Some u → q < u) ↔
      ∃ u, instant (data self) row = Some u ∧ q < u)).
Proof.
  intros Hwf Hsorted Hq. destruct (getfield_date _ Hwf) as [column Hcol].
  pose proof (getfield_date_lookup _ _ Hcol) as Hlook.
  assert (∀ row, head (rows (data self)) = Some row →
     ((∀ (j : nat) u, instant_at (data self) j = Some u → q < u) ↔
      ∃ u, instant (data self) row = Some u ∧ q < u)) as Hfirst.
  { intros row Hrow. rewrite head_lookup in Hrow.
    destruct (instant_at_wf _ _ _ Hwf Hrow) as [u Hu].
    assert (instant_at (data self) 0 = Some u) as Hat
      by (apply instant_at_Some; eauto).
    split.
    - intros Hnone. exists u. split; [done|]. by eapply Hnone.
    - intros (u' & Hu' & Hlt) j v Hj. assert (u' = u) as -> by congruence.
      pose proof (Hsorted _ _ _ _ Hat Hj ltac:(lia)). lia. }
  destruct (last_before_cases self d q column Hq Hcol)
    as [(k & t & Hk & Hqt & Hmax & Hrun)|[Hnone Hrun]]; rewrite Hrun.
  - rewrite Hlook in Hk.
    destruct (_get_row_at self k t Hwf Hk) as (row & Hrow & Ht & Hraise & Hok).
    split; [|split; [|split; [|done]]].
    + intros _. exists k, row, t. do 3 (split; [done|]).
      split; [|split; [|done]].
      * intros j u Hj Hu.
        assert (j ≤ k)%nat as Hle.
        { destruct (decide (j ≤ k)%nat); [done|].
          rewrite <- Hlook in Hj. specialize (Hmax j u ltac:(lia) Hj). lia. }
        split; [done|]. by eapply Hsorted.
      * intros x Hx. destruct (Hok x Hx) as (r & Hr & Hrec & _).
        by exists r.
    + intros Hall. specialize (Hall k t Hk). lia.
    + intros Herr Hkey. exfalso.
      destruct (fromtimestamp t) as [x|e] eqn:Hx.
      * destruct (Hok x eq_refl) as (r & Hr & _). congruence.
      * rewrite (Hraise e eq_refl) in Hkey. injection Hkey as ->.
        destruct (Herr t KeyError Hx) as [?|[?|?]]; done.
  - split; [|split; [|split; [|done]]]; [|done|].
    + intros (j & u & Hj & Hu). rewrite <- Hlook in Hj.
      specialize (Hnone j u Hj). lia.
    + intros _ _ j u Hj. rewrite <- Hlook in Hj. by eapply Hnone.
Qed.

(** C9. No lookup writes to its receiver: after [get_first_date],
    [get_last_date], [get_day], [get_day_or_first_after] or
    [get_day_or_last_before], whether the call returned or raised, the
    ticker (its [name], [long_name] and [data], rows included) is the one
    before the call. *)
Theorem lookups_leave_ticker_unchanged self d :
  after get_first_date self = self ∧
  after get_last_date self = self ∧
  after (get_day d) self = self ∧
  after (get_day_or_first_after d) self = self ∧
  after (get_day_or_last_before d) self = self.
Proof.
  assert (∀ z, readonly (_get_row z)) as Hrow.
  { intros z. unfold _get_row. solve_readonly. }
  assert (readonly get_first_date) as Hfirst
    by (unfold get_first_date; solve_readonly).
  assert (readonly get_last_date) as Hlast
    by (unfold get_last_date; solve_readonly).
  assert (readonly (get_day d)) as Hday
    by (unfold get_day; solve_readonly).
  assert (readonly (get_day_or_first_after d)) as Hafter
    by (unfold get_day_or_first_after; solve_readonly).
  assert (readonly (get_day_or_last_before d)) as Hbefore
    by (unfold get_day_or_last_before; solve_readonly).
  repeat split; [apply Hfirst|apply Hlast|apply Hday|apply Hafter|
                 apply Hbefore].
Qed.

(** C10 (as amended). On a table sorted by timestamp, whenever [get_day d]
    returns a record, [get_day_or_first_after d] and
    [get_day_or_last_before d] return that same record. *)
Theorem exact_hit_agrees_when_sorted self d r :
  sorted_by_instant (data self) →
  run (get_day d) self = Ok r →
  run (get_day_or_first_after d) self = Ok r ∧
  run (get_day_or_last_before d) self = Ok r.
Proof.
  intros Hsorted Hday.
  destruct (lookup_returned_midnight self d r (or_introl Hday)) as [q Hq].
  destruct (getfield (data self) "date") as [column|e] eqn:Hcol.
  2:{ unfold get_day, run, bind, self_data, lift in Hday. simpl in Hday.
      unfold midnight in Hq. rewrite Hq in Hday. simpl in Hday.
      by rewrite Hcol in Hday. }
  pose proof (getfield_date_lookup _ _ Hcol) as Hlook.
  destruct (get_day_three_cases self d q column Hq Hcol)
    as [[Hrun _]|[(k & Hk & Huniq & Hrun)|[Hrun _]]]; [congruence| |congruence].
  rewrite Hrun in Hday. split.
  - rewrite (get_day_or_first_after_run _ _ _ _ Hq Hcol).
    assert (head (select (λ t, q ≤ t) column) = Some (Z.of_nat k))
      as ->; [|done].
    apply select_head. exists k, q.
    do 2 (split; [done|]). split; [simpl; lia|].
    intros k' t' Hlt Hk' Hge. simpl in Hge.
    rewrite Hlook in Hk, Hk'.
    pose proof (Hsorted _ _ _ _ Hk' Hk ltac:(lia)).
    assert (t' = q) as -> by lia.
    rewrite <- Hlook in Hk'. apply Huniq in Hk'. lia.
  - rewrite (get_day_or_last_before_run _ _ _ _ Hq Hcol).
    assert (last (select (λ t, t ≤ q) column) = Some (Z.of_nat k))
      as ->; [|done].
    apply select_last. exists k, q.
    do 2 (split; [done|]). split; [simpl; lia|].
    intros k' t' Hlt Hk' Hge. simpl in Hge.
    rewrite Hlook in Hk, Hk'.
    pose proof (Hsorted _ _ _ _ Hk Hk' ltac:(lia)).
    assert (t' = q) as -> by lia.
    rewrite <- Hlook in Hk'. apply Huniq in Hk'. lia.
Qed.

(** C7. On a sorted table the ceiling lookup is monotone: for valid dates
    [d] no later than [d'], if both lookups return, the date of the record
    returned for [d] is no later than the date of the record returned for
    [d'].  The platform is assumed to give later dates later midnights and
    never to run its calendar backwards. *)
Theorem get_day_or_first_after_monotone self d d' r r' :
  ndarray_wf (data self) →
  sorted_by_instant (data self) →
  midnight_monotone → calendar_monotone →
  valid_date d → valid_date d' → date_le d d' →
  run (get_day_or_first_after d) self = Ok r →
  run (get_day_or_first_after d') self = Ok r' →
  ∃ x x', r !! "date" = Some (VDate x) ∧
          r' !! "date" = Some (VDate x') ∧
          date_le x x'.
Proof.
  intros Hwf Hsorted Hmid Hcal Hd Hd' Hle Hr Hr'.
  destruct (getfield_date _ Hwf) as [column Hcol].
  pose proof (getfield_date_lookup _ _ Hcol) as Hlook.
  destruct (lookup_returned_midnight self d r (or_intror (or_introl Hr)))
    as [q Hq].
  destruct (lookup_returned_midnight self d' r' (or_intror (or_introl Hr')))
    as [q' Hq'].
  specialize (Hmid d d' q q' Hd Hd' Hle Hq Hq').
  destruct (first_after_cases self d q column Hq Hcol)
    as [(k & t & Hk & Hqt & Hmin & Hrun)|[_ Hrun]]; [|congruence].
  destruct (first_after_cases self d' q' column Hq' Hcol)
    as [(k' & t' & Hk' & Hqt' & Hmin' & Hrun')|[_ Hrun']]; [|congruence].
  rewrite Hrun in Hr. rewrite Hrun' in Hr'.
  assert (t ≤ t') as Htt'.
  { assert (k ≤ k')%nat as Hkk'.
    { destruct (decide (k ≤ k')%nat); [done|].
      specialize (Hmin k' t' ltac:(lia) Hk'). lia. }
    rewrite Hlook in Hk, Hk'. by eapply Hsorted. }
  rewrite Hlook in Hk, Hk'.
  destruct (_get_row_returned self k t r Hwf Hk Hr)
    as (? & x & _ & _ & Hx & _ & Hdate).
  destruct (_get_row_returned self k' t' r' Hwf Hk' Hr')
    as (? & x' & _ & _ & Hx' & _ & Hdate').
  exists x, x'. do 2 (split; [done|]). by eapply Hcal.
Qed.

(** C8, as it holds.  When the first row is the only row at or before the
    local midnight of its own date (it is stamped at that midnight, and no
    other row is as early), [get_day_or_last_before] of [get_first_date]
    returns the record of the first row, [rows[0]].  When the last row is
    the only row at or after the local midnight of its own date (no other
    row falls on that day or later), [get_day_or_first_after] of
    [get_last_date] returns the record of [rows[-1]].  The midnights are
    those the platform computes. *)
Theorem boundary_rows_reselected self :
  ndarray_wf (data self) →
  (∀ (first_row : list Z) (t0 : Z) (d0 : date) (q0 : Z),
     head (rows (data self)) = Some first_row →
     instant (data self) first_row = Some t0 →
     fromtimestamp t0 = Ok d0 →
     midnight d0 = Ok q0 →
     t0 ≤ q0 →
     (∀ (j : nat) u, instant_at (data self) j = Some u → u ≤ q0 →
                     j = 0%nat) →
     ∃ r0,
       run get_first_date self = Ok d0 ∧
       run (_get_row 0) self = Ok r0 ∧
       run (get_day_or_last_before d0) self = Ok r0 ∧
       record_of (data self) first_row r0) ∧
  (∀ (last_row : list Z) (tn : Z) (dn : date) (qn : Z),
     last (rows (data self)) = Some last_row →
     instant (data self) last_row = Some tn →
     fromtimestamp tn = Ok dn →
     midnight dn = Ok qn →
     qn ≤ tn →
     (∀ (j : nat) u, instant_at (data self) j = Some u → qn ≤ u →
                     j = pred (length (rows (data self)))) →
     ∃ rn,
       run get_last_date self = Ok dn ∧
       run (_get_row (-1)) self = Ok rn ∧
       run (get_day_or_first_after dn) self = Ok rn ∧
       record_of (data self) last_row rn).
Proof.
  intros Hwf. destruct (getfield_date _ Hwf) as [column Hcol].
  pose proof (getfield_date_lookup _ _ Hcol) as Hlook. split.
  - intros row0 t0 d0 q0 Hfirst Ht0 Hd0 Hq0 Hle Honly.
    pose proof Hfirst as Hrow0. rewrite head_lookup in Hrow0.
    assert (instant_at (data self) 0 = Some t0) as Hat0
      by (apply instant_at_Some; eauto).
    destruct (_get_row_at self 0 t0 Hwf Hat0) as (row & Hrow & _ & _ & Hok).
    assert (row = row0) as -> by congruence.
    destruct (Hok d0 Hd0) as (r0 & Hr0 & Hrec0 & _).
    exists r0. split; [|split; [exact Hr0|split; [|done]]].
    + unfold get_first_date, run, bind, self_data, lift. simpl.
      rewrite py_index_first, Hfirst. simpl.
      by rewrite (row_field_instant _ _ _ Ht0), Hd0.
    + destruct (last_before_cases self d0 q0 column Hq0 Hcol)
        as [(k & t & Hk & Hqt & Hmax & Hrun)|[Hnone _]].
      * rewrite Hrun. rewrite Hlook in Hk.
        by rewrite (Honly k t Hk Hqt).
      * rewrite <- Hlook in Hat0. specialize (Hnone _ _ Hat0). lia.
  - intros rown tn dn qn Hlast Htn Hdn Hqn Hle Honly.
    destruct (last_row_position _ _ Hlast) as [Hrown Hpos].
    assert (instant_at (data self) (pred (length (rows (data self))))
            = Some tn) as Hatn by (apply instant_at_Some; eauto).
    destruct (_get_row_outcome self (-1) rown Hwf) as (t & Ht & _ & Hok).
    { by rewrite py_index_last, Hlast. }
    assert (t = tn) as -> by congruence.
    destruct (Hok dn Hdn) as (rn & Hrn & Hrecn & _).
    exists rn. split; [|split; [exact Hrn|split; [|done]]].
    + unfold get_last_date, run, bind, self_data, lift. simpl.
      rewrite py_index_last, Hlast. simpl.
      by rewrite (row_field_instant _ _ _ Htn), Hdn.
    + destruct (first_after_cases self dn qn column Hqn Hcol)
        as [(k & t & Hk & Hqt & Hmin & Hrun)|[Hnone _]].
      * rewrite Hrun. rewrite Hlook in Hk.
        rewrite (Honly k t Hk Hqt).
        destruct (_get_row_at self _ tn Hwf Hatn)
          as (row & Hrow & _ & _ & Hok').
        assert (row = rown) as -> by congruence.
        destruct (Hok' dn Hdn) as (rn' & Hrn' & Hrecn' & _).
        rewrite Hrn'. f_equal. by eapply record_of_unique.
      * rewrite <- Hlook in Hatn. specialize (Hnone _ _ Hatn). lia.
Qed.

End Properties.

(** ** The properties at work on the example tables *)

Lemma week_ticker_wf : ndarray_wf (data week_ticker).
Proof. apply two_columns_wf; [done | by repeat constructor]. Qed.

Lemma week_ticker_sorted : sorted_by_instant (data week_ticker).
Proof. by eapply ascending_sorted. Qed.

Lemma repeated_ticker_wf : ndarray_wf (data repeated_ticker).
Proof. apply two_columns_wf; [done | by repeat constructor]. Qed.

Lemma empty_ticker_wf : ndarray_wf (data empty_ticker).
Proof. apply two_columns_wf; [done | by repeat constructor]. Qed.

Lemma unsorted_ticker_wf : ndarray_wf (data unsorted_ticker).
Proof. apply two_columns_wf; [done | by repeat constructor]. Qed.



Lemma year_one_repeated_ticker_wf : ndarray_wf (data year_one_repeated_ticker).
Proof. apply two_columns_wf; [done | by repeat constructor]. Qed.

Lemma far_ticker_wf : ndarray_wf (data far_ticker).
Proof. apply two_columns_wf; [done | by repeat constructor]. Qed.

Lemma far_ticker_sorted : sorted_by_instant (data far_ticker).
Proof. by eapply ascending_sorted. Qed.

Lemma early_ticker_wf : ndarray_wf (data early_ticker).
Proof. apply two_columns_wf; [done | by repeat constructor]. Qed.

Lemma early_ticker_sorted : sorted_by_instant (data early_ticker).
Proof. by eapply ascending_sorted. Qed.

Lemma afternoon_ticker_wf : ndarray_wf (data afternoon_ticker).
Proof. apply two_columns_wf; [done | by repeat constructor]. Qed.

Lemma afternoon_ticker_sorted : sorted_by_instant (data afternoon_ticker).
Proof. by eapply ascending_sorted. Qed.

Lemma valid_date_0001_01_01 : valid_date (mkdate 1 1 1).
Proof. split; [simpl; lia | reflexivity]. Qed.

Lemma valid_date_2020_01_04 : valid_date (mkdate 2020 1 4).
Proof. split; [simpl; lia | reflexivity]. Qed.

Lemma valid_date_2020_01_05 : valid_date (mkdate 2020 1 5).
Proof. split; [simpl; lia | reflexivity]. Qed.

(** The positions of [week_ticker] and their timestamps. *)
Lemma week_ticker_instants (j : nat) (u : Z) :
  instant_at (data week_ticker) j = Some u →
  j = 0%nat ∧ u = 1577919600 ∨
  j = 1%nat ∧ u = 1578006000 ∨
  j = 2%nat ∧ u = 1578265200.
Proof.
  destruct j as [|[|[|j]]]; vm_compute; intros [= <-]; auto.
Qed.

(** Two records that are equal agree on the closing price. *)
Lemma close_of_equal_results (x y : result (gmap string pyval)) :
  x = y →
  match x, y with
  | Ok a, Ok b => a !! "close" = b !! "close"
  | _, _ => True
  end.
Proof. intros ->. by destruct y. Qed.

(** The rows of [week_ticker] are stamped at CET midnights. *)
Example week_ticker_stamps :
  midnight (tz:=cet) (mkdate 2020 1 2) = Ok 1577919600 ∧
  midnight (tz:=cet) (mkdate 2020 1 3) = Ok 1578006000 ∧
  midnight (tz:=cet) (mkdate 2020 1 6) = Ok 1578265200.
Proof. by vm_compute. Qed.

(** The platform computes no timestamp for 0001-01-01, and no date for an
    instant past year 9999 or before year 1. *)
Example conversions_out_of_range :
  midnight (tz:=utc) (mkdate 1 1 1) = Raise ValueError ∧
  midnight (tz:=utc) (mkdate 1 1 2) = Ok (-62135510400) ∧
  fromtimestamp (LocalTime:=utc) (-62135596800) = Ok (mkdate 1 1 1) ∧
  fromtimestamp (LocalTime:=utc) 253402300800 = Raise ValueError ∧
  fromtimestamp (LocalTime:=utc) (-62167219200) = Raise ValueError.
Proof. by vm_compute. Qed.

(** With the first instant repeated, the floor lookup of the first date
    lands on the last of the repeats, not on [rows[0]]. *)
Example repeated_boundary_takes_last :
  run (get_first_date (tz:=cet)) repeated_ticker = Ok (mkdate 2020 1 2) ∧
  ∃ r, run (get_day_or_last_before (tz:=cet) (mkdate 2020 1 2))
         repeated_ticker = Ok r ∧
       r !! "close" = Some (VNum 181).
Proof.
  split; [by vm_compute|].
  destruct (run (get_day_or_last_before (tz:=cet) (mkdate 2020 1 2))
              repeated_ticker) as [r|e] eqn:Hr;
    [|vm_compute in Hr; discriminate].
  exists r. split; [done|].
  assert (∀ x : result (gmap string pyval), x = Ok r →
            match x with Ok a => a !! "close" | Raise _ => None end
            = r !! "close") as Hproj by (by intros x ->).
  rewrite <- (Hproj _ Hr). by vm_compute.
Qed.

(** Empty table: both boundary dates fail. *)
Lemma boundary_dates_of_empty_table_witness :
  run (get_first_date (tz:=cet)) empty_ticker = Raise IndexError ∧
  run (get_last_date (tz:=cet)) empty_ticker = Raise IndexError.
Proof. apply (boundary_dates_of_empty_table empty_ticker). reflexivity. Defined.

(** 2020-01-05 is a Sunday: no row. *)
Lemma get_day_absent_witness :
  run (get_day (tz:=cet) (mkdate 2020 1 5)) week_ticker = Raise KeyError.
Proof.
  apply (get_day_absent week_ticker (mkdate 2020 1 5) 1578178800).
  - apply week_ticker_wf.
  - reflexivity.
  - intros i Hi. apply week_ticker_instants in Hi.
    destruct Hi as [[_ Hi]|[[_ Hi]|[_ Hi]]]; discriminate.
Defined.

(** C5, as stated for every date: a counterexample.  On the UTC platform
    the day 0001-01-01 starts at [civil_midnight 0], an instant no row of
    the empty table carries, yet [get_day] fails with [ValueError], not
    with [KeyError]: the platform computes no timestamp for that date, and
    the method raises before it reads the table. *)
Lemma get_day_absent_counterexample :
  ¬ (∀ (self : Ticker) (d : date),
       ndarray_wf (data self) → valid_date d →
       (∀ i, instant_at (data self) i ≠ Some (civil_midnight 0 d)) →
       run (get_day (tz:=utc) d) self = Raise KeyError).
Proof.
  intros Hclaim.
  specialize (Hclaim empty_ticker (mkdate 1 1 1) empty_ticker_wf
                valid_date_0001_01_01).
  assert (run (get_day (tz:=utc) (mkdate 1 1 1)) empty_ticker
          = Raise ValueError) as Hrun by reflexivity.
  rewrite Hrun in Hclaim. discriminate Hclaim.
  intros i. by destruct i.
Qed.

(** Two rows for 2020-01-02. *)
Lemma get_day_duplicate_witness :
  run (get_day (tz:=cet) (mkdate 2020 1 2)) repeated_ticker
    = Raise Exception ∧
  ∀ r, run (get_day (tz:=cet) (mkdate 2020 1 2)) repeated_ticker ≠ Ok r.
Proof.
  apply (get_day_duplicate repeated_ticker (mkdate 2020 1 2) 1577919600 0 1).
  - apply repeated_ticker_wf.
  - reflexivity.
  - lia.
  - reflexivity.
  - reflexivity.
Defined.

(** C4, as stated for every date: a counterexample.  Both rows of
    [year_one_repeated_ticker] are stamped at the UTC midnight of
    0001-01-01, yet [get_day] of that date fails with [ValueError], not
    with [Exception]: the platform computes no timestamp for that date. *)
Lemma get_day_duplicate_counterexample :
  ¬ (∀ (self : Ticker) (d : date) (i j : nat),
       ndarray_wf (data self) → valid_date d →
       i ≠ j →
       instant_at (data self) i = Some (civil_midnight 0 d) →
       instant_at (data self) j = Some (civil_midnight 0 d) →
       run (get_day (tz:=utc) d) self = Raise Exception).
Proof.
  intros Hclaim.
  specialize (Hclaim year_one_repeated_ticker (mkdate 1 1 1) 0%nat 1%nat
                year_one_repeated_ticker_wf valid_date_0001_01_01).
  assert (run (get_day (tz:=utc) (mkdate 1 1 1)) year_one_repeated_ticker
          = Raise ValueError) as Hrun by reflexivity.
  rewrite Hrun in Hclaim. discriminate Hclaim; [lia|reflexivity..].
Qed.



(** Saturday 2020-01-04: the next row is Monday's. *)
Lemma get_day_or_first_after_first_witness :
  ∃ r, run (get_day_or_first_after (tz:=cet) (mkdate 2020 1 4)) week_ticker
         = Ok r ∧
       record_of (tz:=cet) (data week_ticker) [1578265200; 185] r.
Proof.
  destruct (get_day_or_first_after_first (tz:=cet) week_ticker
              (mkdate 2020 1 4) 1578092400 week_ticker_wf week_ticker_sorted
              eq_refl)
    as [Hfound _].
  destruct Hfound as (i & row & t & Hrow & Ht & Hq & Hmin & Hok & _).
  { exists 2%nat, 1578265200. split; [reflexivity | lia]. }
  assert (instant_at (data week_ticker) i = Some t) as Hi
    by (apply instant_at_Some; eauto).
  apply week_ticker_instants in Hi.
  destruct Hi as [[-> ->]|[[-> ->]|[-> ->]]]; [lia|lia|].
  injection Hrow as <-. apply (Hok (mkdate 2020 1 6)). reflexivity.
Defined.

(** C2, as stated for every date and every sorted table: two
    counterexamples on the UTC platform.  A row of [week_ticker] is at or
    after the midnight of 0001-01-01, yet the lookup of that date returns
    no row: the platform computes no timestamp for it.  And the row of
    [far_ticker] is at or after the midnight of 2020-01-01, yet the lookup
    returns no row: the row is stamped past year 9999, and the platform
    gives it no date. *)
Lemma get_day_or_first_after_counterexample :
  ¬ (∀ (self : Ticker) (d : date),
       ndarray_wf (data self) → sorted_by_instant (data self) →
       valid_date d →
       (∃ j u, instant_at (data self) j = Some u ∧ civil_midnight 0 d ≤ u) →
       ∃ r, run (get_day_or_first_after (tz:=utc) d) self = Ok r) ∧
  ¬ (∀ (self : Ticker) (d : date) (q : Z),
       ndarray_wf (data self) → sorted_by_instant (data self) →
       midnight (tz:=utc) d = Ok q →
       (∃ j u, instant_at (data self) j = Some u ∧ q ≤ u) →
       ∃ r, run (get_day_or_first_after (tz:=utc) d) self = Ok r).
Proof.
  split; intros Hclaim.
  - destruct (Hclaim week_ticker (mkdate 1 1 1) week_ticker_wf
                week_ticker_sorted valid_date_0001_01_01) as [r Hr].
    + exists 0%nat, 1577919600. split; [reflexivity|]. vm_compute.
      discriminate.
    + assert (run (get_day_or_first_after (tz:=utc) (mkdate 1 1 1))
                week_ticker = Raise ValueError) as Hrun by reflexivity.
      rewrite Hrun in Hr. discriminate.
  - destruct (Hclaim far_ticker (mkdate 2020 1 1) 1577836800 far_ticker_wf
                far_ticker_sorted eq_refl) as [r Hr].
    + exists 0%nat, 253402300800. split; [reflexivity|lia].
    + assert (run (get_day_or_first_after (tz:=utc) (mkdate 2020 1 1))
                far_ticker = Raise ValueError) as Hrun by reflexivity.
      rewrite Hrun in Hr. discriminate.
Qed.

(** Saturday 2020-01-04: the previous row is Friday's. *)
Lemma get_day_or_last_before_last_witness :
  ∃ r, run (get_day_or_last_before (tz:=cet) (mkdate 2020 1 4)) week_ticker
         = Ok r ∧
       record_of (tz:=cet) (data week_ticker) [1578006000; 182] r.
Proof.
  destruct (get_day_or_last_before_last (tz:=cet) week_ticker
              (mkdate 2020 1 4) 1578092400 week_ticker_wf week_ticker_sorted
              eq_refl)
    as [Hfound _].
  destruct Hfound as (i & row & t & Hrow & Ht & Hq & Hmax & Hok & _).
  { exists 0%nat, 1577919600. split; [reflexivity | lia]. }
  assert (instant_at (data week_ticker) i = Some t) as Hi
    by (apply instant_at_Some; eauto).
  apply week_ticker_instants in Hi.
  destruct Hi as [[-> ->]|[[-> ->]|[-> ->]]]; [|
    injection Hrow as <-; apply (Hok (mkdate 2020 1 3)); reflexivity | lia].
  exfalso.
  destruct (Hmax 1%nat 1578006000) as [Hle _]; [reflexivity | lia | lia].
Defined.

(** C3, as stated for every date and every sorted table: two
    counterexamples on the UTC platform.  No row of [week_ticker] is at or
    before the midnight of 0001-01-01, yet the lookup of that date fails
    with [ValueError], not with [KeyError]: the platform computes no
    timestamp for it.  And the row of [early_ticker] is at or before the
    midnight of 2020-01-01, yet the lookup returns no row: the row is
    stamped before year 1, and the platform gives it no date. *)
Lemma get_day_or_last_before_counterexample :
  ¬ (∀ (self : Ticker) (d : date),
       ndarray_wf (data self) → sorted_by_instant (data self) →
       valid_date d →
       (∀ (j : nat) u, instant_at (data self) j = Some u →
                       civil_midnight 0 d < u) →
       run (get_day_or_last_before (tz:=utc) d) self = Raise KeyError) ∧
  ¬ (∀ (self : Ticker) (d : date) (q : Z),
       ndarray_wf (data self) → sorted_by_instant (data self) →
       midnight (tz:=utc) d = Ok q →
       (∃ j u, instant_at (data self) j = Some u ∧ u ≤ q) →
       ∃ r, run (get_day_or_last_before (tz:=utc) d) self = Ok r).
Proof.
  split; intros Hclaim.
  - specialize (Hclaim week_ticker (mkdate 1 1 1) week_ticker_wf
                  week_ticker_sorted valid_date_0001_01_01).
    assert (run (get_day_or_last_before (tz:=utc) (mkdate 1 1 1))
              week_ticker = Raise ValueError) as Hrun by reflexivity.
    rewrite Hrun in Hclaim. discriminate Hclaim.
    intros j u Hj. apply week_ticker_instants in Hj.
    destruct Hj as [[_ ->]|[[_ ->]|[_ ->]]]; by vm_compute.
  - destruct (Hclaim early_ticker (mkdate 2020 1 1) 1577836800 early_ticker_wf
                early_ticker_sorted eq_refl) as [r Hr].
    + exists 0%nat, (-62167219200). split; [reflexivity|lia].
    + assert (run (get_day_or_last_before (tz:=utc) (mkdate 2020 1 1))
                early_ticker = Raise ValueError) as Hrun by reflexivity.
      rewrite Hrun in Hr. discriminate.
Qed.

(** Saturday and Sunday both resolve to Monday's row. *)
Lemma get_day_or_first_after_monotone_witness :
  ∃ r r' x x',
    run (get_day_or_first_after (tz:=cet) (mkdate 2020 1 4)) week_ticker
      = Ok r ∧
    run (get_day_or_first_after (tz:=cet) (mkdate 2020 1 5)) week_ticker
      = Ok r' ∧
    r !! "date" = Some (VDate x) ∧
    r' !! "date" = Some (VDate x') ∧
    date_le x x'.
Proof.
  destruct (run (get_day_or_first_after (tz:=cet) (mkdate 2020 1 4))
              week_ticker) as [r|e] eqn:Hr;
    [|vm_compute in Hr; discriminate].
  destruct (run (get_day_or_first_after (tz:=cet) (mkdate 2020 1 5))
              week_ticker) as [r'|e] eqn:Hr';
    [|vm_compute in Hr'; discriminate].
  destruct (get_day_or_first_after_monotone (tz:=cet) week_ticker
              (mkdate 2020 1 4) (mkdate 2020 1 5) r r')
    as (x & x' & Hx & Hx' & Hle).
  - apply week_ticker_wf.
  - apply week_ticker_sorted.
  - apply fixed_offset_midnight_monotone.
  - apply fixed_offset_calendar_monotone.
  - apply valid_date_2020_01_04.
  - apply valid_date_2020_01_05.
  - reflexivity.
  - exact Hr.
  - exact Hr'.
  - exists r, r', x, x'. repeat split; assumption.
Defined.

(** Midnight-stamped rows on distinct days: the boundary dates lead back
    to the boundary rows. *)
Lemma boundary_rows_reselected_witness :
  (∃ r0,
     run (get_first_date (tz:=cet)) week_ticker = Ok (mkdate 2020 1 2) ∧
     run (_get_row (tz:=cet) 0) week_ticker = Ok r0 ∧
     run (get_day_or_last_before (tz:=cet) (mkdate 2020 1 2)) week_ticker
       = Ok r0 ∧
     record_of (tz:=cet) (data week_ticker) [1577919600; 180] r0) ∧
  (∃ rn,
     run (get_last_date (tz:=cet)) week_ticker = Ok (mkdate 2020 1 6) ∧
     run (_get_row (tz:=cet) (-1)) week_ticker = Ok rn ∧
     run (get_day_or_first_after (tz:=cet) (mkdate 2020 1 6)) week_ticker
       = Ok rn ∧
     record_of (tz:=cet) (data week_ticker) [1578265200; 185] rn).
Proof.
  destruct (boundary_rows_reselected (tz:=cet) week_ticker week_ticker_wf)
    as [Hfloor Hceiling].
  split.
  - apply (Hfloor [1577919600; 180] 1577919600 (mkdate 2020 1 2) 1577919600).
    + reflexivity.
    + reflexivity.
    + reflexivity.
    + reflexivity.
    + lia.
    + intros j u Hj Hu. apply week_ticker_instants in Hj.
      destruct Hj as [[-> _]|[[_ ->]|[_ ->]]]; [done|lia|lia].
  - apply (Hceiling [1578265200; 185] 1578265200 (mkdate 2020 1 6) 1578265200).
    + reflexivity.
    + reflexivity.
    + reflexivity.
    + reflexivity.
    + lia.
    + intros j u Hj Hu. apply week_ticker_instants in Hj.
      destruct Hj as [[_ ->]|[[_ ->]|[-> _]]]; [lia|lia|done].
Defined.

(** C8, as stated for every sorted table with a row: a counterexample to
    each half.  On the UTC platform both rows of [afternoon_ticker] are
    stamped in the afternoon of 1970-01-01, the date of the first and of
    the last row.  No row is at or before the midnight of that date, so
    the floor lookup of the first date raises; and the first row at or
    after that midnight is [rows[0]], so the ceiling lookup of the last
    date returns [rows[0]], whose closing price is not that of
    [rows[-1]]. *)
Lemma boundary_rows_counterexample :
  ¬ (∀ self : Ticker,
       ndarray_wf (data self) → sorted_by_instant (data self) →
       rows (data self) ≠ [] →
       ∃ d0 r0,
         run (get_first_date (tz:=utc)) self = Ok d0 ∧
         run (_get_row (tz:=utc) 0) self = Ok r0 ∧
         run (get_day_or_last_before (tz:=utc) d0) self = Ok r0) ∧
  ¬ (∀ self : Ticker,
       ndarray_wf (data self) → sorted_by_instant (data self) →
       rows (data self) ≠ [] →
       ∃ dn rn,
         run (get_last_date (tz:=utc)) self = Ok dn ∧
         run (_get_row (tz:=utc) (-1)) self = Ok rn ∧
         run (get_day_or_first_after (tz:=utc) dn) self = Ok rn).
Proof.
  split; intros Hclaim.
  - destruct (Hclaim afternoon_ticker afternoon_ticker_wf
                afternoon_ticker_sorted)
      as (d0 & r0 & Hd0 & _ & Hbefore); [done|].
    assert (run (get_first_date (tz:=utc)) afternoon_ticker
            = Ok (mkdate 1970 1 1)) as Hfirst by reflexivity.
    rewrite Hfirst in Hd0. injection Hd0 as <-.
    assert (run (get_day_or_last_before (tz:=utc) (mkdate 1970 1 1))
              afternoon_ticker = Raise KeyError) as Hrun by reflexivity.
    rewrite Hrun in Hbefore. discriminate.
  - destruct (Hclaim afternoon_ticker afternoon_ticker_wf
                afternoon_ticker_sorted)
      as (dn & rn & Hdn & Hrow & Hafter); [done|].
    assert (run (get_last_date (tz:=utc)) afternoon_ticker
            = Ok (mkdate 1970 1 1)) as Hlast by reflexivity.
    rewrite Hlast in Hdn. injection Hdn as <-.
    assert (run (_get_row (tz:=utc) (-1)) afternoon_ticker
            = run (get_day_or_first_after (tz:=utc) (mkdate 1970 1 1))
                afternoon_ticker) as Heq by congruence.
    apply close_of_equal_results in Heq. vm_compute in Heq. discriminate.
Qed.

(** On a sorted table the three lookups of 2020-01-03 agree. *)
Lemma exact_hit_agrees_when_sorted_witness :
  ∃ r, run (get_day (tz:=cet) (mkdate 2020 1 3)) week_ticker = Ok r ∧
       run (get_day_or_first_after (tz:=cet) (mkdate 2020 1 3)) week_ticker
         = Ok r ∧
       run (get_day_or_last_before (tz:=cet) (mkdate 2020 1 3)) week_ticker
         = Ok r.
Proof.
  destruct (run (get_day (tz:=cet) (mkdate 2020 1 3)) week_ticker)
    as [r|e] eqn:Hr; [|vm_compute in Hr; discriminate].
  exists r. split; [reflexivity|].
  apply (exact_hit_agrees_when_sorted (tz:=cet) week_ticker (mkdate 2020 1 3)).
  - apply week_ticker_sorted.
  - exact Hr.
Defined.

(** C10, as stated for every table: a counterexample.  On the UTC platform
    the exact lookup of 1970-01-01 in [unsorted_ticker] returns the second
    row, the ceiling lookup the first. *)
Lemma exact_hit_counterexample :
  ¬ (∀ (self : Ticker) (d : date) (r : gmap string pyval),
       ndarray_wf (data self) →
       run (get_day (tz:=utc) d) self = Ok r →
       run (get_day_or_first_after (tz:=utc) d) self = Ok r ∧
       run (get_day_or_last_before (tz:=utc) d) self = Ok r).
Proof.
  intros Hclaim.
  destruct (run (get_day (tz:=utc) (mkdate 1970 1 1)) unsorted_ticker)
    as [r|e] eqn:Hday; [|vm_compute in Hday; discriminate].
  destruct (Hclaim unsorted_ticker (mkdate 1970 1 1) r unsorted_ticker_wf Hday)
    as [Hafter _].
  assert (Ok r = run (get_day_or_first_after (tz:=utc) (mkdate 1970 1 1))
                   unsorted_ticker) as Heq by congruence.
  rewrite <- Hday in Heq.
  apply close_of_equal_results in Heq. vm_compute in Heq. discriminate.
Qed.

(** ** Further properties of the lookups *)

(** [seq[i]] succeeds exactly on the indices from [-len] to [len - 1], and
    a negative index counts from the end. *)
Lemma py_index_in_range {A} (l : list A) (z : Z) :
  - Z.of_nat (length l) ≤ z < Z.of_nat (length l) →
  ∃ x, l !! Z.to_nat (z mod Z.of_nat (length l)) = Some x ∧
       py_index l z = Ok x.
Proof.
  intros Hz. unfold py_index. cbv zeta.
  set (n := Z.of_nat (length l)) in *.
  assert (z mod n = if z <? 0 then z + n else z) as Hmod.
  { destruct (Z.ltb_spec z 0).
    - symmetry. apply (Z.mod_unique z n (-1)); lia.
    - apply Z.mod_small. lia. }
  rewrite Hmod.
  set (j := if z <? 0 then z + n else z) in *.
  assert (0 ≤ j < n) as Hj by (unfold j; destruct (Z.ltb_spec z 0); lia).
  assert ((j <? 0) = false) as -> by (apply Z.ltb_ge; lia).
  assert ((n <=? j) = false) as -> by (apply Z.leb_gt; lia).
  simpl.
  destruct (l !! Z.to_nat j) as [x|] eqn:E; [by exists x|].
  apply lookup_ge_None in E. lia.
Qed.

Lemma py_index_out_of_range {A} (l : list A) (z : Z) :
  z < - Z.of_nat (length l) ∨ Z.of_nat (length l) ≤ z →
  py_index l z = Raise IndexError.
Proof.
  intros Hz. unfold py_index. cbv zeta.
  destruct (Z.ltb_spec z 0).
  - assert ((z + Z.of_nat (length l) <? 0) = true) as ->
      by (apply Z.ltb_lt; lia). done.
  - assert ((z <? 0) = false) as -> by (apply Z.ltb_ge; lia).
    assert ((Z.of_nat (length l) <=? z) = true) as ->
      by (apply Z.leb_le; lia). done.
Qed.

Section MoreLookups.
Context {tz : LocalTime}.
Implicit Types (self : Ticker) (d : date) (column : list Z).

Lemma _get_row_raises self (z : Z) (e : exn) :
  py_index (rows (data self)) z = Raise e →
  run (_get_row z) self = Raise e.
Proof.
  intros Hz. unfold _get_row, run, bind, self_data, lift. simpl.
  by rewrite Hz.
Qed.

(** [_get_row] depends on its index through the row it selects. *)
Lemma _get_row_same_row self (z1 z2 : Z) :
  py_index (rows (data self)) z1 = py_index (rows (data self)) z2 →
  run (_get_row z1) self = run (_get_row z2) self.
Proof.
  intros Hz. unfold _get_row, run, bind, self_data, lift. simpl.
  by rewrite Hz.
Qed.

(** The exceptions of [_get_row] at a position of the table are those of
    the date conversion. *)
Lemma _get_row_at_raises self (k : nat) (t : Z) (e : exn) :
  ndarray_wf (data self) →
  instant_at (data self) k = Some t →
  run (_get_row (Z.of_nat k)) self = Raise e →
  fromtimestamp t = Raise e.
Proof.
  intros Hwf Hk Hrun.
  destruct (_get_row_at self k t Hwf Hk) as (row & _ & _ & Hraise & Hok).
  destruct (fromtimestamp t) as [x|e'] eqn:Hx.
  - destruct (Hok x eq_refl) as (r & Hr & _). congruence.
  - rewrite (Hraise e' eq_refl) in Hrun. congruence.
Qed.

(** The row a lookup returned. *)
Lemma lookup_returned_row self d (q : Z) (r : gmap string pyval) :
  ndarray_wf (data self) →
  midnight d = Ok q →
  run (get_day d) self = Ok r ∨
  run (get_day_or_first_after d) self = Ok r ∨
  run (get_day_or_last_before d) self = Ok r →
  ∃ (k : nat) t, instant_at (data self) k = Some t ∧
                 run (_get_row (Z.of_nat k)) self = Ok r.
Proof.
  intros Hwf Hq Hr. destruct (getfield_date _ Hwf) as [column Hcol].
  pose proof (getfield_date_lookup _ _ Hcol) as Hlook.
  destruct Hr as [Hr|[Hr|Hr]].
  - destruct (get_day_three_cases self d q column Hq Hcol)
      as [[Hrun _]|[(k & Hk & _ & Hrun)|[Hrun _]]]; [congruence| |congruence].
    exists k, q. rewrite <- Hlook. split; [done | congruence].
  - destruct (first_after_cases self d q column Hq Hcol)
      as [(k & t & Hk & _ & _ & Hrun)|[_ Hrun]]; [|congruence].
    exists k, t. rewrite <- Hlook. split; [done | congruence].
  - destruct (last_before_cases self d q column Hq Hcol)
      as [(k & t & Hk & _ & _ & Hrun)|[_ Hrun]]; [|congruence].
    exists k, t. rewrite <- Hlook. split; [done | congruence].
Qed.

End MoreLookups.

Section MoreProperties.
Context {tz : LocalTime}.
Implicit Types (self : Ticker) (d : date) (column : list Z).

(** X1. [_get_row index] raises [IndexError] when [index] is outside
    [-n .. n-1], [n] the number of rows.  Inside, it selects the row at
    [index], a negative index counting from the end, and its outcome is
    that of dating the row's timestamp: the record of the row when the
    platform gives a date, the platform's exception when it raises.  The
    date conversion raising no [IndexError] of its own, [IndexError]
    means that the index is out of range. *)
Theorem _get_row_index_range self (z : Z) :
  ndarray_wf (data self) →
  (z < - Z.of_nat (length (rows (data self))) ∨
   Z.of_nat (length (rows (data self))) ≤ z →
   run (_get_row z) self = Raise IndexError) ∧
  (- Z.of_nat (length (rows (data self))) ≤ z
     < Z.of_nat (length (rows (data self))) →
   ∃ row t,
     rows (data self)
       !! Z.to_nat (z mod Z.of_nat (length (rows (data self)))) = Some row ∧
     instant (data self) row = Some t ∧
     (∀ x, fromtimestamp t = Ok x →
           ∃ r, run (_get_row z) self = Ok r ∧
                record_of (data self) row r ∧
                r !! "date" = Some (VDate x)) ∧
     (∀ e, fromtimestamp t = Raise e → run (_get_row z) self = Raise e)) ∧
  (date_errors_only →
   run (_get_row z) self = Raise IndexError →
   z < - Z.of_nat (length (rows (data self))) ∨
   Z.of_nat (length (rows (data self))) ≤ z).
Proof.
  intros Hwf.
  assert (- Z.of_nat (length (rows (data self))) ≤ z
            < Z.of_nat (length (rows (data self))) →
          ∃ row t,
            rows (data self)
              !! Z.to_nat (z mod Z.of_nat (length (rows (data self))))
              = Some row ∧
            instant (data self) row = Some t ∧
            (∀ x, fromtimestamp t = Ok x →
                  ∃ r, run (_get_row z) self = Ok r ∧
                       record_of (data self) row r ∧
                       r !! "date" = Some (VDate x)) ∧
            (∀ e, fromtimestamp t = Raise e →
                  run (_get_row z) self = Raise e)) as Hin.
  { intros Hz. destruct (py_index_in_range _ z Hz) as (row & Hrow & Hpy).
    destruct (_get_row_outcome self z row Hwf Hpy) as (t & Ht & Hraise & Hok).
    by exists row, t. }
  split; [|split; [exact Hin|]].
  - intros Hz. by apply _get_row_raises, py_index_out_of_range.
  - intros Herr Hraise.
    destruct (decide (- Z.of_nat (length (rows (data self))) ≤ z
                        < Z.of_nat (length (rows (data self))))) as [Hz|Hz];
      [|lia].
    exfalso. destruct (Hin Hz) as (row & t & _ & _ & Hok & Hexn).
    destruct (fromtimestamp t) as [x|e] eqn:Hx.
    + destruct (Hok x eq_refl) as (r & Hr & _). congruence.
    + rewrite (Hexn e eq_refl) in Hraise. injection Hraise as ->.
      destruct (Herr t IndexError Hx) as [?|[?|?]]; done.
Qed.

(** X2. On a table with rows, the outcome of [get_first_date] is that of
    dating the timestamp of the first row, and the outcome of
    [get_last_date] that of dating the timestamp of the last row: the
    calendar date when the platform gives one, its exception when it
    raises. *)
Theorem boundary_dates_of_rows self :
  ndarray_wf (data self) →
  rows (data self) ≠ [] →
  ∃ t0 tn,
    instant_at (data self) 0 = Some t0 ∧
    instant_at (data self) (pred (length (rows (data self)))) = Some tn ∧
    run get_first_date self = fromtimestamp t0 ∧
    run get_last_date self = fromtimestamp tn.
Proof. apply boundary_dates_from_rows. Qed.

(** X3. Once the platform has computed the midnight timestamp [q] of [d],
    the outcome of [get_day d] is decided by how many rows carry [q]:
    [KeyError] when none does, [Exception] when two or more do, and with
    exactly one the outcome of dating [q], a record or the platform's
    exception.  The date conversion raising neither [KeyError] nor
    [IndexError], no [IndexError] and no [TypeError] escapes. *)
Theorem get_day_outcomes self d (q : Z) :
  ndarray_wf (data self) →
  date_errors_only →
  midnight d = Ok q →
  ((∃ r, run (get_day d) self = Ok r) ↔
   (∃ i, instant_at (data self) i = Some q ∧
         ∀ j, instant_at (data self) j = Some q → j = i) ∧
   ∃ x, fromtimestamp q = Ok x) ∧
  (run (get_day d) self = Raise KeyError ↔
   ∀ i, instant_at (data self) i ≠ Some q) ∧
  (run (get_day d) self = Raise Exception ↔
   ∃ i j, i ≠ j ∧ instant_at (data self) i = Some q ∧
          instant_at (data self) j = Some q) ∧
  (∀ e, run (get_day d) self = Raise e →
        e = KeyError ∨ e = Exception ∨
        e = ValueError ∨ e = OverflowError ∨ e = OSError).
Proof.
  intros Hwf Herr Hq. destruct (getfield_date _ Hwf) as [column Hcol].
  pose proof (getfield_date_lookup _ _ Hcol) as Hlook.
  destruct (get_day_three_cases self d q column Hq Hcol)
    as [[Hrun Hnone]|[(k & Hk & Huniq & Hrun)|(Hrun & k1 & k2 & Hne & Hk1 & Hk2)]];
    rewrite Hrun; setoid_rewrite <- Hlook.
  - split; [|split; [|split]].
    + split; [by intros [r ?]|].
      intros [(i & Hi & _) _]. by apply Hnone in Hi.
    + done.
    + split; [done|]. intros (i & j & _ & Hi & _). by apply Hnone in Hi.
    + intros e [= <-]. by left.
  - assert (¬ ∀ i, column !! i ≠ Some q) as Hsome
      by (intros Hnone; by apply Hnone in Hk).
    assert (¬ ∃ i j, i ≠ j ∧ column !! i = Some q ∧ column !! j = Some q)
      as Hone.
    { intros (i & j & Hne & Hi & Hj). apply Huniq in Hi, Hj. congruence. }
    assert (∃ i, column !! i = Some q ∧ ∀ j, column !! j = Some q → j = i)
      as Hexact by by exists k.
    rewrite Hlook in Hk.
    destruct (_get_row_at self k q Hwf Hk) as (row & _ & _ & Hraise & Hok).
    destruct (fromtimestamp q) as [x|e] eqn:Hx.
    + destruct (Hok x eq_refl) as (r & Hr & _). rewrite Hr.
      split; [|split; [|split]]; [|done..].
      split; [|by exists r]. intros _. split; [done|]. by exists x.
    + rewrite (Hraise e eq_refl).
      assert (e ≠ KeyError ∧ e ≠ Exception) as [HnK HnE]
        by (destruct (Herr q e Hx) as [-> | [-> | ->]]; done).
      split; [|split; [|split]].
      * split; [by intros [r ?]|]. by intros [_ [x ?]].
      * split; [|done]. intros [= ->]. done.
      * split; [|done]. intros [= ->]. done.
      * intros e' [= <-]. destruct (Herr q e Hx) as [-> | [-> | ->]]; auto.
  - split; [|split; [|split]].
    + split; [by intros [r ?]|].
      intros [(i & Hi & Huniq) _]. apply Huniq in Hk1, Hk2. congruence.
    + split; [done|]. intros Hnone. by apply Hnone in Hk1.
    + split; [|done]. intros _. by exists k1, k2.
    + intros e [= <-]. auto.
Qed.

(** X4. On a sorted table, on a platform whose calendar never runs
    backwards, when [get_first_date] and [get_last_date] return, the date
    of every record a lookup returns lies between the two. *)
Theorem lookup_dates_within_boundary_dates self d r (first last : date) :
  ndarray_wf (data self) →
  sorted_by_instant (data self) →
  calendar_monotone →
  run get_first_date self = Ok first →
  run get_last_date self = Ok last →
  run (get_day d) self = Ok r ∨
  run (get_day_or_first_after d) self = Ok r ∨
  run (get_day_or_last_before d) self = Ok r →
  ∃ x, r !! "date" = Some (VDate x) ∧
       date_le first x ∧ date_le x last.
Proof.
  intros Hwf Hsorted Hcal Hfirst Hlast Hr. unfold calendar_monotone in Hcal.
  destruct (lookup_returned_midnight self d r Hr) as [q Hq].
  destruct (lookup_returned_row self d q r Hwf Hq Hr) as (k & t & Hk & Hrow).
  destruct (_get_row_returned self k t r Hwf Hk Hrow)
    as (row & x & Hk' & _ & Hx & _ & Hdate).
  destruct (boundary_dates_from_rows self Hwf)
    as (t0 & tn & Ht0 & Htn & Hfirst' & Hlast').
  { intros Hnil. by rewrite Hnil in Hk'. }
  rewrite Hfirst in Hfirst'. rewrite Hlast in Hlast'.
  exists x. split; [done|].
  assert (k ≤ pred (length (rows (data self))))%nat
    by (apply lookup_lt_Some in Hk'; lia).
  split.
  - apply (Hcal t0 t); [|done..]. by apply (Hsorted 0%nat k); [| |lia].
  - apply (Hcal t tn); [|done..].
    by apply (Hsorted k (pred (length (rows (data self))))).
Qed.

(** X5. On a sorted table the floor lookup is monotone, like the ceiling
    lookup: for valid dates [d] no later than [d'], the record returned for
    [d] is dated no later than the one returned for [d']. *)
Theorem get_day_or_last_before_monotone self d d' r r' :
  ndarray_wf (data self) →
  sorted_by_instant (data self) →
  midnight_monotone → calendar_monotone →
  valid_date d → valid_date d' → date_le d d' →
  run (get_day_or_last_before d) self = Ok r →
  run (get_day_or_last_before d') self = Ok r' →
  ∃ x x', r !! "date" = Some (VDate x) ∧
          r' !! "date" = Some (VDate x') ∧
          date_le x x'.
Proof.
  intros Hwf Hsorted Hmid Hcal Hd Hd' Hle Hr Hr'.
  destruct (getfield_date _ Hwf) as [column Hcol].
  pose proof (getfield_date_lookup _ _ Hcol) as Hlook.
  destruct (lookup_returned_midnight self d r (or_intror (or_intror Hr)))
    as [q Hq].
  destruct (lookup_returned_midnight self d' r' (or_intror (or_intror Hr')))
    as [q' Hq'].
  specialize (Hmid d d' q q' Hd Hd' Hle Hq Hq').
  destruct (last_before_cases self d q column Hq Hcol)
    as [(k & t & Hk & Hqt & Hmax & Hrun)|[_ Hrun]]; [|congruence].
  destruct (last_before_cases self d' q' column Hq' Hcol)
    as [(k' & t' & Hk' & Hqt' & Hmax' & Hrun')|[_ Hrun']]; [|congruence].
  rewrite Hrun in Hr. rewrite Hrun' in Hr'.
  assert (t ≤ t') as Htt'.
  { assert (k ≤ k')%nat as Hkk'.
    { destruct (decide (k ≤ k')%nat); [done|].
      specialize (Hmax' k t ltac:(lia) Hk). lia. }
    rewrite Hlook in Hk, Hk'. by eapply Hsorted. }
  rewrite Hlook in Hk, Hk'.
  destruct (_get_row_returned self k t r Hwf Hk Hr)
    as (? & x & _ & _ & Hx & _ & Hdate).
  destruct (_get_row_returned self k' t' r' Hwf Hk' Hr')
    as (? & x' & _ & _ & Hx' & _ & Hdate').
  exists x, x'. do 2 (split; [done|]). by eapply Hcal.
Qed.

(** X6. The ceiling lookup never returns an earlier date than the one asked
    for, and the floor lookup never a later one, sorted table or not: the
    midnight timestamp of the query date is dated on that date, and the
    calendar never runs backwards. *)
Theorem lookup_dates_on_their_side self d r :
  ndarray_wf (data self) →
  calendar_monotone →
  (∀ q, midnight d = Ok q → fromtimestamp q = Ok d) →
  (run (get_day_or_first_after d) self = Ok r →
   ∃ x, r !! "date" = Some (VDate x) ∧ date_le d x) ∧
  (run (get_day_or_last_before d) self = Ok r →
   ∃ x, r !! "date" = Some (VDate x) ∧ date_le x d).
Proof.
  intros Hwf Hcal Hround. destruct (getfield_date _ Hwf) as [column Hcol].
  unfold calendar_monotone in Hcal.
  pose proof (getfield_date_lookup _ _ Hcol) as Hlook. split; intros Hr.
  - destruct (lookup_returned_midnight self d r (or_intror (or_introl Hr)))
      as [q Hq].
    destruct (first_after_cases self d q column Hq Hcol)
      as [(k & t & Hk & Hqt & _ & Hrun)|[_ Hrun]]; [|congruence].
    rewrite Hlook in Hk. rewrite Hrun in Hr.
    destruct (_get_row_returned self k t r Hwf Hk Hr)
      as (? & x & _ & _ & Hx & _ & Hdate).
    exists x. split; [done|]. by apply (Hcal q t); [|apply Hround|].
  - destruct (lookup_returned_midnight self d r (or_intror (or_intror Hr)))
      as [q Hq].
    destruct (last_before_cases self d q column Hq Hcol)
      as [(k & t & Hk & Hqt & _ & Hrun)|[_ Hrun]]; [|congruence].
    rewrite Hlook in Hk. rewrite Hrun in Hr.
    destruct (_get_row_returned self k t r Hwf Hk Hr)
      as (? & x & _ & _ & Hx & _ & Hdate).
    exists x. split; [done|]. by apply (Hcal t q); [| |apply Hround].
Qed.

(** X7. On a sorted table, when [d] has no exact row and both the floor and
    the ceiling lookup return, they return neighbouring rows: the floor
    row, strictly before the query instant, is immediately followed by the
    ceiling row, strictly after it. *)
Theorem floor_and_ceiling_are_neighbours self d rb ra :
  ndarray_wf (data self) →
  sorted_by_instant (data self) →
  run (get_day d) self = Raise KeyError →
  run (get_day_or_last_before d) self = Ok rb →
  run (get_day_or_first_after d) self = Ok ra →
  ∃ (i : nat) rowb rowa tb ta q,
    rows (data self) !! i = Some rowb ∧
    rows (data self) !! S i = Some rowa ∧
    instant (data self) rowb = Some tb ∧
    instant (data self) rowa = Some ta ∧
    midnight d = Ok q ∧
    tb < q < ta ∧
    record_of (data self) rowb rb ∧
    record_of (data self) rowa ra.
Proof.
  intros Hwf Hsorted Hday Hb Ha.
  destruct (getfield_date _ Hwf) as [column Hcol].
  pose proof (getfield_date_lookup _ _ Hcol) as Hlook.
  destruct (lookup_returned_midnight self d rb (or_intror (or_intror Hb)))
    as [q Hq].
  destruct (last_before_cases self d q column Hq Hcol)
    as [(kb & tb & Hkb & Hqb & Hmax & Hrunb)|[_ Hrunb]]; [|congruence].
  destruct (first_after_cases self d q column Hq Hcol)
    as [(ka & ta & Hka & Hqa & Hmin & Hruna)|[_ Hruna]]; [|congruence].
  rewrite Hrunb in Hb. rewrite Hruna in Ha.
  rewrite Hlook in Hka, Hkb.
  destruct (_get_row_returned self kb tb rb Hwf Hkb Hb)
    as (rowb & xb & Hrowb & Htb & Hxb & Hrecb & _).
  destruct (_get_row_returned self ka ta ra Hwf Hka Ha)
    as (rowa & xa & Hrowa & Hta & Hxa & Hreca & _).
  rewrite <- Hlook in Hka, Hkb.
  assert (∀ k : nat, column !! k = Some q → False) as Hnone.
  { intros k0 Hk0.
    destruct (get_day_three_cases self d q column Hq Hcol)
      as [[_ Hnone]|[(k & Hk & Huniq & Hrun)|[Hrun _]]];
      [by apply Hnone in Hk0| |congruence].
    rewrite Hrun in Hday. rewrite Hlook in Hk.
    pose proof (_get_row_at_raises self k q KeyError Hwf Hk Hday) as Hexn.
    assert (k0 = k) as -> by by apply Huniq.
    destruct (decide (tb = q)) as [->|Hneb]; [congruence|].
    destruct (decide (ta = q)) as [->|Hnea]; [congruence|].
    assert (kb < k)%nat.
    { destruct (decide (kb < k)%nat); [done|].
      rewrite Hlook in Hkb.
      pose proof (Hsorted _ _ _ _ Hk Hkb ltac:(lia)). lia. }
    rewrite <- Hlook in Hk. specialize (Hmax k q ltac:(lia) Hk). lia. }
  assert (tb ≠ q) by (intros ->; by apply Hnone in Hkb).
  assert (ta ≠ q) by (intros ->; by apply Hnone in Hka).
  assert (kb < ka)%nat as Hlt.
  { destruct (decide (kb < ka)%nat); [done|].
    rewrite Hlook in Hka, Hkb.
    pose proof (Hsorted _ _ _ _ Hka Hkb ltac:(lia)). lia. }
  assert (ka = S kb) as ->.
  { destruct (decide (ka = S kb)); [done|].
    assert (is_Some (column !! S kb)) as [u Hu].
    { apply lookup_lt_is_Some. apply lookup_lt_Some in Hka. lia. }
    specialize (Hmax (S kb) u ltac:(lia) Hu).
    specialize (Hmin (S kb) u ltac:(lia) Hu). lia. }
  exists kb, rowb, rowa, tb, ta, q. do 5 (split; [done|]).
  split; [lia|]. by split.
Qed.

(** X8. Once the platform has computed the midnight timestamp of a date, a
    table has no rows exactly when both the ceiling and the floor lookup
    of that date raise [KeyError]: on a table with rows every date
    resolves in at least one direction, to a record or to the exception
    of dating the selected row.  The date conversion raises no [KeyError]
    of its own. *)
Theorem both_directions_fail_only_when_empty self d (q : Z) :
  ndarray_wf (data self) →
  date_errors_only →
  midnight d = Ok q →
  (rows (data self) = [] ↔
   run (get_day_or_first_after d) self = Raise KeyError ∧
   run (get_day_or_last_before d) self = Raise KeyError).
Proof.
  intros Hwf Herr Hq. destruct (getfield_date _ Hwf) as [column Hcol].
  pose proof (getfield_date_lookup _ _ Hcol) as Hlook.
  assert (∀ (k : nat) t, column !! k = Some t →
            run (_get_row (Z.of_nat k)) self ≠ Raise KeyError) as Hok.
  { intros k t Hk Hrun. rewrite Hlook in Hk.
    pose proof (_get_row_at_raises self k t KeyError Hwf Hk Hrun) as Hexn.
    destruct (Herr t KeyError Hexn) as [?|[?|?]]; done. }
  split.
  - intros Hnil.
    assert (∀ (k : nat) t, column !! k = Some t → False) as Hempty.
    { intros k t Hk. rewrite Hlook in Hk.
      apply instant_at_Some in Hk as (row & Hrow & _).
      by rewrite Hnil in Hrow. }
    split.
    + destruct (first_after_cases self d q column Hq Hcol)
        as [(k & t & Hk & _)|[_ Hrun]]; [by apply Hempty in Hk | done].
    + destruct (last_before_cases self d q column Hq Hcol)
        as [(k & t & Hk & _)|[_ Hrun]]; [by apply Hempty in Hk | done].
  - intros [Hafter Hbefore].
    destruct (rows (data self)) as [|row rest] eqn:Hrows; [done|]. exfalso.
    assert (is_Some (instant_at (data self) 0)) as [t Ht].
    { unfold instant_at. rewrite Hrows. simpl.
      apply (instant_at_wf _ 0%nat _ Hwf). by rewrite Hrows. }
    rewrite <- Hlook in Ht.
    destruct (first_after_cases self d q column Hq Hcol)
      as [(k & u & Hk & _ & _ & Hrun)|[Hnone _]].
    { apply (Hok k u Hk). congruence. }
    destruct (last_before_cases self d q column Hq Hcol)
      as [(k & u & Hk & _ & _ & Hrun)|[Hnone' _]].
    { apply (Hok k u Hk). congruence. }
    specialize (Hnone _ _ Ht). specialize (Hnone' _ _ Ht). lia.
Qed.

(** X9. Once the platform has computed the midnight timestamp of [d], a
    query at or before the first row's instant resolves upwards to the
    first row: the ceiling lookup ends as [_get_row 0] does.  A query at
    or after the last row's instant resolves downwards to the last row:
    the floor lookup ends as [_get_row (-1)] does.  The order of the rows
    in between does not matter. *)
Theorem queries_beyond_the_ends self d (q : Z) :
  ndarray_wf (data self) →
  midnight d = Ok q →
  (∀ t0, instant_at (data self) 0 = Some t0 → q ≤ t0 →
     run (get_day_or_first_after d) self = run (_get_row 0) self) ∧
  (∀ tn, instant_at (data self) (pred (length (rows (data self)))) = Some tn →
     tn ≤ q →
     run (get_day_or_last_before d) self = run (_get_row (-1)) self).
Proof.
  intros Hwf Hq. destruct (getfield_date _ Hwf) as [column Hcol].
  pose proof (getfield_date_lookup _ _ Hcol) as Hlook. split.
  - intros t0 Ht0 Hle.
    destruct (first_after_cases self d q column Hq Hcol)
      as [(k & t & Hk & _ & Hmin & Hrun)|[Hnone _]].
    + destruct k as [|k]; [done|].
      rewrite <- Hlook in Ht0. specialize (Hmin 0%nat t0 ltac:(lia) Ht0). lia.
    + rewrite <- Hlook in Ht0. specialize (Hnone _ _ Ht0). lia.
  - intros tn Htn Hle.
    pose proof Htn as (rown & Hrown & _)%instant_at_Some.
    assert (last (rows (data self)) = Some rown) as Hlast
      by by rewrite last_lookup.
    assert (run (_get_row (Z.of_nat (pred (length (rows (data self)))))) self
            = run (_get_row (-1)) self) as Hsame.
    { apply _get_row_same_row. rewrite py_index_last, Hlast.
      by rewrite py_index_nat, Hrown. }
    destruct (last_before_cases self d q column Hq Hcol)
      as [(k & t & Hk & _ & Hmax & Hrun)|[Hnone _]].
    + destruct (decide (k = pred (length (rows (data self))))) as [->|Hne];
        [congruence|].
      assert (k < length (rows (data self)))%nat.
      { rewrite Hlook in Hk. apply instant_at_Some in Hk as (? & Hk & _).
        by apply lookup_lt_Some in Hk. }
      assert (k < pred (length (rows (data self))))%nat as Hlt
        by (destruct (length (rows (data self))); simpl in *; lia).
      rewrite <- Hlook in Htn.
      specialize (Hmax _ tn Hlt Htn). lia.
    + rewrite <- Hlook in Htn. specialize (Hnone _ _ Htn). lia.
Qed.

(** X10. On a sorted table in which the rows from position [i] to a later
    position [j] are exactly those carrying the midnight timestamp of [d],
    as the platform computes it, [get_day] raises [Exception], while the
    ceiling lookup ends as [_get_row i] does, on the first of them, and
    the floor lookup as [_get_row j], on the last. *)
Theorem repeated_instant_resolves_to_its_ends self d (q : Z) (i j : nat) :
  ndarray_wf (data self) →
  sorted_by_instant (data self) →
  midnight d = Ok q →
  (i < j)%nat →
  instant_at (data self) i = Some q →
  instant_at (data self) j = Some q →
  (∀ k, instant_at (data self) k = Some q → (i ≤ k ≤ j)%nat) →
  run (get_day d) self = Raise Exception ∧
  run (get_day_or_first_after d) self = run (_get_row (Z.of_nat i)) self ∧
  run (get_day_or_last_before d) self = run (_get_row (Z.of_nat j)) self.
Proof.
  intros Hwf Hsorted Hq Hij Hi Hj Hall.
  destruct (getfield_date _ Hwf) as [column Hcol].
  pose proof (getfield_date_lookup _ _ Hcol) as Hlook. split; [|split].
  - destruct (get_day_three_cases self d q column Hq Hcol)
      as [[_ Hnone]|[(k & _ & Huniq & _)|[Hrun _]]]; [| |done].
    + rewrite <- Hlook in Hi. by apply Hnone in Hi.
    + rewrite <- Hlook in Hi, Hj. apply Huniq in Hi, Hj. lia.
  - destruct (first_after_cases self d q column Hq Hcol)
      as [(k & t & Hk & Hqt & Hmin & Hrun)|[Hnone _]].
    + assert (k = i) as ->; [|done].
      assert (k ≤ i)%nat.
      { destruct (decide (k ≤ i)%nat); [done|]. rewrite <- Hlook in Hi.
        specialize (Hmin i _ ltac:(lia) Hi). lia. }
      rewrite Hlook in Hk.
      pose proof (Hsorted _ _ _ _ Hk Hi ltac:(lia)).
      assert (t = q) as -> by lia.
      apply Hall in Hk. lia.
    + rewrite <- Hlook in Hi. specialize (Hnone _ _ Hi). lia.
  - destruct (last_before_cases self d q column Hq Hcol)
      as [(k & t & Hk & Hqt & Hmax & Hrun)|[Hnone _]].
    + assert (k = j) as ->; [|done].
      assert (j ≤ k)%nat.
      { destruct (decide (j ≤ k)%nat); [done|]. rewrite <- Hlook in Hj.
        specialize (Hmax j _ ltac:(lia) Hj). lia. }
      rewrite Hlook in Hk.
      pose proof (Hsorted _ _ _ _ Hj Hk ltac:(lia)).
      assert (t = q) as -> by lia.
      apply Hall in Hk. lia.
    + rewrite <- Hlook in Hj. specialize (Hnone _ _ Hj). lia.
Qed.

(** X11. On a table of distinct instants, each the local midnight of its
    own date as the platform computes it, the date of a record returned
    by the ceiling or the floor lookup can be looked up exactly: [get_day]
    of that date returns the same record. *)
Theorem found_date_looks_up_exactly self d r :
  ndarray_wf (data self) →
  distinct_instants (data self) →
  midnight_stamped (data self) →
  run (get_day_or_first_after d) self = Ok r ∨
  run (get_day_or_last_before d) self = Ok r →
  ∃ x, r !! "date" = Some (VDate x) ∧ run (get_day x) self = Ok r.
Proof.
  intros Hwf Hdistinct Hstamped Hr.
  destruct (getfield_date _ Hwf) as [column Hcol].
  pose proof (getfield_date_lookup _ _ Hcol) as Hlook.
  destruct (lookup_returned_midnight self d r (or_intror Hr)) as [q Hq].
  destruct (lookup_returned_row self d q r Hwf Hq (or_intror Hr))
    as (k & t & Hk & Hrow).
  destruct (_get_row_returned self k t r Hwf Hk Hrow)
    as (? & x & _ & _ & Hx & _ & Hdate).
  exists x. split; [done|].
  pose proof (Hstamped k t x Hk Hx) as Hmid.
  destruct (get_day_three_cases self x t column Hmid Hcol)
    as [[_ Hnone]|[(k' & Hk' & _ & Hrun)|(_ & k1 & k2 & Hne & Hk1 & Hk2)]].
  - exfalso. apply (Hnone k). by rewrite Hlook.
  - rewrite Hrun. rewrite Hlook in Hk'.
    by rewrite (Hdistinct k' k t Hk' Hk).
  - exfalso. rewrite Hlook in Hk1, Hk2.
    by apply Hne, (Hdistinct k1 k2 _ Hk1 Hk2).
Qed.

(** X12. When the platform raises on the query date, as it does for
    0001-01-01, each of the three lookups raises that exception, whatever
    the table holds, and leaves the ticker as it was: the timestamp is
    computed before the table is read. *)
Theorem lookups_stop_on_unconvertible_date self d (e : exn) :
  midnight d = Raise e →
  (run (get_day d) self = Raise e ∧
   run (get_day_or_first_after d) self = Raise e ∧
   run (get_day_or_last_before d) self = Raise e) ∧
  (after (get_day d) self = self ∧
   after (get_day_or_first_after d) self = self ∧
   after (get_day_or_last_before d) self = self).
Proof.
  intros He. split; [by apply lookup_midnight_error|].
  unfold midnight in He.
  unfold after, get_day, get_day_or_first_after, get_day_or_last_before,
    bind, lift. by rewrite He.
Qed.

End MoreProperties.

(** ** The further properties at work on the example tables *)

Lemma repeated_ticker_sorted : sorted_by_instant (data repeated_ticker).
Proof. by eapply ascending_sorted. Qed.

Lemma week_ticker_distinct : distinct_instants (data week_ticker).
Proof.
  intros i j t Hi Hj.
  apply week_ticker_instants in Hi, Hj.
  destruct Hi as [[-> ->]|[[-> ->]|[-> ->]]];
    destruct Hj as [[-> Hj]|[[-> Hj]|[-> Hj]]]; done.
Qed.

Lemma week_ticker_midnight_stamped :
  midnight_stamped (tz:=cet) (data week_ticker).
Proof.
  intros i t x Hi. apply week_ticker_instants in Hi.
  destruct Hi as [[_ ->]|[[_ ->]|[_ ->]]]; intros Hx; vm_compute in Hx;
    injection Hx as <-; vm_compute; reflexivity.
Qed.

Lemma valid_date_2020_01_03 : valid_date (mkdate 2020 1 3).
Proof. split; [simpl; lia | reflexivity]. Qed.

(** [rows[-1]] is Monday's row, and there is no [rows[3]]. *)
Lemma _get_row_index_range_witness :
  (∃ r, run (_get_row (tz:=cet) (-1)) week_ticker = Ok r ∧
        record_of (tz:=cet) (data week_ticker) [1578265200; 185] r ∧
        r !! "date" = Some (VDate (mkdate 2020 1 6))) ∧
  run (_get_row (tz:=cet) 3) week_ticker = Raise IndexError.
Proof.
  split.
  - destruct (_get_row_index_range (tz:=cet) week_ticker (-1) week_ticker_wf)
      as (_ & Hin & _).
    destruct Hin as (row & t & Hrow & Ht & Hok & _); [simpl; lia|].
    vm_compute in Hrow. injection Hrow as <-.
    vm_compute in Ht. injection Ht as <-.
    apply Hok. reflexivity.
  - destruct (_get_row_index_range (tz:=cet) week_ticker 3 week_ticker_wf)
      as [Hout _].
    apply Hout. right. simpl. lia.
Defined.

(** Thursday 2020-01-02 and Monday 2020-01-06 are the boundary dates. *)
Lemma boundary_dates_of_rows_witness :
  ∃ t0 tn,
    instant_at (data week_ticker) 0 = Some t0 ∧
    instant_at (data week_ticker) (pred (length (rows (data week_ticker))))
      = Some tn ∧
    run (get_first_date (tz:=cet)) week_ticker
      = fromtimestamp (LocalTime:=cet) t0 ∧
    run (get_last_date (tz:=cet)) week_ticker
      = fromtimestamp (LocalTime:=cet) tn.
Proof.
  apply (boundary_dates_of_rows (tz:=cet) week_ticker).
  - apply week_ticker_wf.
  - done.
Defined.

(** Friday 2020-01-03 has one row, so [get_day] returns. *)
Lemma get_day_outcomes_witness :
  ∃ r, run (get_day (tz:=cet) (mkdate 2020 1 3)) week_ticker = Ok r.
Proof.
  destruct (get_day_outcomes (tz:=cet) week_ticker (mkdate 2020 1 3)
              1578006000 week_ticker_wf (fixed_offset_date_errors_only 3600)
              eq_refl) as [Hone _].
  apply Hone. split; [|by exists (mkdate 2020 1 3)].
  exists 1%nat. split; [reflexivity|].
  intros j Hj. apply week_ticker_instants in Hj.
  destruct Hj as [[_ Hj]|[[-> _]|[_ Hj]]]; [discriminate|done|discriminate].
Defined.

(** Saturday's ceiling row is dated within the table's boundary dates. *)
Lemma lookup_dates_within_boundary_dates_witness :
  ∃ r x,
    run (get_day_or_first_after (tz:=cet) (mkdate 2020 1 4)) week_ticker
      = Ok r ∧
    r !! "date" = Some (VDate x) ∧
    date_le (mkdate 2020 1 2) x ∧ date_le x (mkdate 2020 1 6).
Proof.
  assert (∃ r, run (get_day_or_first_after (tz:=cet) (mkdate 2020 1 4))
                 week_ticker = Ok r) as [r Hr]
    by (vm_compute; eauto).
  destruct (lookup_dates_within_boundary_dates (tz:=cet) week_ticker
              (mkdate 2020 1 4) r (mkdate 2020 1 2) (mkdate 2020 1 6))
    as (x & Hx & Hle1 & Hle2).
  - apply week_ticker_wf.
  - apply week_ticker_sorted.
  - apply fixed_offset_calendar_monotone.
  - reflexivity.
  - reflexivity.
  - right; left. exact Hr.
  - exists r, x. repeat split; assumption.
Defined.

(** Friday and Saturday both resolve downwards to Friday's row. *)
Lemma get_day_or_last_before_monotone_witness :
  ∃ r r' x x',
    run (get_day_or_last_before (tz:=cet) (mkdate 2020 1 3)) week_ticker
      = Ok r ∧
    run (get_day_or_last_before (tz:=cet) (mkdate 2020 1 4)) week_ticker
      = Ok r' ∧
    r !! "date" = Some (VDate x) ∧
    r' !! "date" = Some (VDate x') ∧
    date_le x x'.
Proof.
  assert (∃ r, run (get_day_or_last_before (tz:=cet) (mkdate 2020 1 3))
                 week_ticker = Ok r) as [r Hr]
    by (vm_compute; eauto).
  assert (∃ r, run (get_day_or_last_before (tz:=cet) (mkdate 2020 1 4))
                 week_ticker = Ok r) as [r' Hr']
    by (vm_compute; eauto).
  destruct (get_day_or_last_before_monotone (tz:=cet) week_ticker
              (mkdate 2020 1 3) (mkdate 2020 1 4) r r')
    as (x & x' & Hx & Hx' & Hle).
  - apply week_ticker_wf.
  - apply week_ticker_sorted.
  - apply fixed_offset_midnight_monotone.
  - apply fixed_offset_calendar_monotone.
  - apply valid_date_2020_01_03.
  - apply valid_date_2020_01_04.
  - reflexivity.
  - exact Hr.
  - exact Hr'.
  - exists r, r', x, x'. repeat split; assumption.
Defined.

(** Saturday's ceiling row is dated on or after Saturday. *)
Lemma lookup_dates_on_their_side_witness :
  ∃ r x,
    run (get_day_or_first_after (tz:=cet) (mkdate 2020 1 4)) week_ticker
      = Ok r ∧
    r !! "date" = Some (VDate x) ∧
    date_le (mkdate 2020 1 4) x.
Proof.
  assert (∃ r, run (get_day_or_first_after (tz:=cet) (mkdate 2020 1 4))
                 week_ticker = Ok r) as [r Hr]
    by (vm_compute; eauto).
  destruct (lookup_dates_on_their_side (tz:=cet) week_ticker
              (mkdate 2020 1 4) r) as [Hafter _].
  - apply week_ticker_wf.
  - apply fixed_offset_calendar_monotone.
  - apply (fixed_offset_round_trip 3600).
  - destruct (Hafter Hr) as (x & Hx & Hle). exists r, x.
    split; [exact Hr|]. split; [exact Hx | exact Hle].
Defined.

(** Saturday falls between Friday's row and Monday's, which are
    neighbours. *)
Lemma floor_and_ceiling_are_neighbours_witness :
  ∃ rb ra (i : nat) rowb rowa tb ta q,
    run (get_day_or_last_before (tz:=cet) (mkdate 2020 1 4)) week_ticker
      = Ok rb ∧
    run (get_day_or_first_after (tz:=cet) (mkdate 2020 1 4)) week_ticker
      = Ok ra ∧
    rows (data week_ticker) !! i = Some rowb ∧
    rows (data week_ticker) !! S i = Some rowa ∧
    instant (data week_ticker) rowb = Some tb ∧
    instant (data week_ticker) rowa = Some ta ∧
    midnight (tz:=cet) (mkdate 2020 1 4) = Ok q ∧
    tb < q < ta ∧
    record_of (tz:=cet) (data week_ticker) rowb rb ∧
    record_of (tz:=cet) (data week_ticker) rowa ra.
Proof.
  assert (∃ r, run (get_day_or_last_before (tz:=cet) (mkdate 2020 1 4))
                 week_ticker = Ok r) as [rb Hb]
    by (vm_compute; eauto).
  assert (∃ r, run (get_day_or_first_after (tz:=cet) (mkdate 2020 1 4))
                 week_ticker = Ok r) as [ra Ha]
    by (vm_compute; eauto).
  destruct (floor_and_ceiling_are_neighbours (tz:=cet) week_ticker
              (mkdate 2020 1 4) rb ra)
    as (i & rowb & rowa & tb & ta & q & H1 & H2 & H3 & H4 & H5 & H6 & H7 & H8).
  - apply week_ticker_wf.
  - apply week_ticker_sorted.
  - reflexivity.
  - exact Hb.
  - exact Ha.
  - exists rb, ra, i, rowb, rowa, tb, ta, q.
    do 8 (split; [assumption|]). split; assumption.
Defined.

(** On the empty table a date resolves in neither direction. *)
Lemma both_directions_fail_only_when_empty_witness :
  run (get_day_or_first_after (tz:=cet) (mkdate 2020 1 4)) empty_ticker
    = Raise KeyError ∧
  run (get_day_or_last_before (tz:=cet) (mkdate 2020 1 4)) empty_ticker
    = Raise KeyError.
Proof.
  apply (both_directions_fail_only_when_empty (tz:=cet) empty_ticker
           (mkdate 2020 1 4) 1578092400 empty_ticker_wf
           (fixed_offset_date_errors_only 3600) eq_refl).
  reflexivity.
Defined.

(** New Year's Day 2020 is before the table: the ceiling lookup ends as
    [_get_row 0] does. *)
Lemma queries_beyond_the_ends_witness :
  run (get_day_or_first_after (tz:=cet) (mkdate 2020 1 1)) week_ticker
    = run (_get_row (tz:=cet) 0) week_ticker.
Proof.
  destruct (queries_beyond_the_ends (tz:=cet) week_ticker (mkdate 2020 1 1)
              1577833200 week_ticker_wf eq_refl) as [Hfirst _].
  apply (Hfirst 1577919600).
  - reflexivity.
  - lia.
Defined.

(** Two rows for 2020-01-02: the exact lookup refuses, the ceiling lookup
    takes the first and the floor lookup the second. *)
Lemma repeated_instant_resolves_to_its_ends_witness :
  run (get_day (tz:=cet) (mkdate 2020 1 2)) repeated_ticker
    = Raise Exception ∧
  run (get_day_or_first_after (tz:=cet) (mkdate 2020 1 2)) repeated_ticker
    = run (_get_row (tz:=cet) (Z.of_nat 0)) repeated_ticker ∧
  run (get_day_or_last_before (tz:=cet) (mkdate 2020 1 2)) repeated_ticker
    = run (_get_row (tz:=cet) (Z.of_nat 1)) repeated_ticker.
Proof.
  apply (repeated_instant_resolves_to_its_ends (tz:=cet) repeated_ticker
           (mkdate 2020 1 2) 1577919600 0 1).
  - apply repeated_ticker_wf.
  - apply repeated_ticker_sorted.
  - reflexivity.
  - lia.
  - reflexivity.
  - reflexivity.
  - intros [|[|k]]; [lia | lia | vm_compute; discriminate].
Defined.

(** Saturday resolves upwards to the row dated Monday, and the exact lookup
    of that date returns the same record. *)
Lemma found_date_looks_up_exactly_witness :
  ∃ r x,
    run (get_day_or_first_after (tz:=cet) (mkdate 2020 1 4)) week_ticker
      = Ok r ∧
    r !! "date" = Some (VDate x) ∧
    run (get_day (tz:=cet) x) week_ticker = Ok r.
Proof.
  assert (∃ r, run (get_day_or_first_after (tz:=cet) (mkdate 2020 1 4))
                 week_ticker = Ok r) as [r Hr]
    by (vm_compute; eauto).
  destruct (found_date_looks_up_exactly (tz:=cet) week_ticker
              (mkdate 2020 1 4) r) as (x & Hx & Hday).
  - apply week_ticker_wf.
  - apply week_ticker_distinct.
  - apply week_ticker_midnight_stamped.
  - left. exact Hr.
  - exists r, x. split; [exact Hr|]. split; [exact Hx | exact Hday].
Defined.

(** The platform computes no timestamp for 0001-01-01: every lookup of
    that date raises, on a table that holds a row for it. *)
Lemma lookups_stop_on_unconvertible_date_witness :
  (run (get_day (tz:=utc) (mkdate 1 1 1)) year_one_ticker
     = Raise ValueError ∧
   run (get_day_or_first_after (tz:=utc) (mkdate 1 1 1)) year_one_ticker
     = Raise ValueError ∧
   run (get_day_or_last_before (tz:=utc) (mkdate 1 1 1)) year_one_ticker
     = Raise ValueError) ∧
  (after (get_day (tz:=utc) (mkdate 1 1 1)) year_one_ticker
     = year_one_ticker ∧
   after (get_day_or_first_after (tz:=utc) (mkdate 1 1 1)) year_one_ticker
     = year_one_ticker ∧
   after (get_day_or_last_before (tz:=utc) (mkdate 1 1 1)) year_one_ticker
     = year_one_ticker).
Proof.
  apply (lookups_stop_on_unconvertible_date (tz:=utc) year_one_ticker
           (mkdate 1 1 1) ValueError).
  reflexivity.
Defined.
